(** * PythonMonkey: the liveness bridge, the bytes proxy and the evaluator

    A shallow embedding of
    - [handleSharedPythonMonkeyMemory], [memoizePyTypeAndGCThing] and [eval]
      (the module file of the extension),
    - [PyBytesProxyHandler] with its iterator (PyBytesProxyHandler.cc),
    - [setSpiderMonkeyException] (setSpiderMonkeyException.cc),
    together with the properties the design document states about them. *)

From Stdlib Require Import ZArith String Ascii List Lia Bool.
From Stdlib.Strings Require Import Byte.
From Stdlib Require Import DecimalString SpecFloat.
From stdpp Require Import gmap list fin_maps.

Import ListNotations.
Open Scope Z_scope.

(** ** Machine integers *)

Definition INT32_MAX : Z := 2147483647.
Definition INT32_MIN : Z := -2147483648.

(** Conversion of an integer to [int32_t]: reduction modulo 2^32 into the
    signed range. *)
Definition to_int32 (z : Z) : Z := (z + 2147483648) mod 4294967296 - 2147483648.

(** ** The host side *)

Module Py.

(** What the bridge reads of a [PyObject]: its reference count, whether the
    host collector has finalized it, and the name of its type
    ([Py_TYPE(o)->tp_name]). *)
Record PyObject := {
  ob_refcnt : Z;
  gc_finalized : bool;   (* PyObject_GC_IsFinalized *)
  tp_name : string
}.

Inductive PyExc :=
| PyExc_TypeError | PyExc_RuntimeError | PyExc_ValueError | PyExc_AttributeError
| SpiderMonkeyError.

(** The error indicator of the host thread. *)
Record PyErr := { exc : PyExc; message : string }.

End Py.

(** ** The liveness bridge *)

Module Bridge.
Import Py.

(** A [PyType *]: the address of a host wrapper. *)
Definition PyTypePtr := N.

(** A [JS::PersistentRooted<JS::Value> *]: the address of a root handle. *)
Definition GCThing := N.

(** The host heap as the sweep sees it: [pyType->getPyObject()]. *)
Definition HostHeap := PyTypePtr -> PyObject.

(** [std::unordered_map<PyType *, std::vector<JS::PersistentRooted<JS::Value> *>>] *)
Abbreviation Table := (gmap PyTypePtr (list GCThing)).

Inductive JSGCStatus := JSGC_BEGIN | JSGC_END.

(** Line 30: the test that retires an entry. *)
Definition host_unreachable (o : PyObject) : bool :=
  gc_finalized o || (ob_refcnt o =? 1).

(** Line 34, for one [innerPyIt]: it is not [pyIt] and its vector holds
    [rval]. *)
Definition also_related (pyIt : PyTypePtr) (rval : GCThing)
    (inner : PyTypePtr * list GCThing) : bool :=
  bool_decide (inner.1 <> pyIt) && bool_decide (rval ∈ inner.2).

(** Lines 32-38: the scan over the whole table that sets [found]. *)
Definition found (tbl : Table) (pyIt : PyTypePtr) (rval : GCThing) : bool :=
  existsb (also_related pyIt rval) (map_to_list tbl).

(** Lines 31-43: the loop over the vector of [pyIt]; [deleted] is the log of
    the [delete rval] statements executed so far, oldest first. *)
Fixpoint release_related (tbl : Table) (pyIt : PyTypePtr)
    (rvals : list GCThing) (deleted : list GCThing) : list GCThing :=
  match rvals with
  | [] => deleted
  | rval :: rest =>
      release_related tbl pyIt rest
        (if found tbl pyIt rval then deleted else deleted ++ [rval])
  end.

(** The state the hook works on. *)
Record Sweep := {
  PyTypeToGCThing : Table;
  deleted : list GCThing
}.

(** Lines 31-43: the handles of the entry at [pyIt] are gone through; the
    entry is still in the table. *)
Definition release (s : Sweep) (pyIt : PyTypePtr) (rvals : list GCThing) : Sweep :=
  {| PyTypeToGCThing := PyTypeToGCThing s;
     deleted := release_related (PyTypeToGCThing s) pyIt rvals (deleted s) |}.

(** Line 44: the entry at [pyIt] is erased. *)
Definition erase (s : Sweep) (pyIt : PyTypePtr) : Sweep :=
  {| PyTypeToGCThing := delete pyIt (PyTypeToGCThing s);
     deleted := deleted s |}.

(** Lines 28-48: one turn of the [while] loop, with the iterator at the
    entry of key [pyIt]. *)
Definition visit (host : HostHeap) (s : Sweep) (pyIt : PyTypePtr) : Sweep :=
  match PyTypeToGCThing s !! pyIt with
  | None => s
  | Some rvals =>
      if host_unreachable (host pyIt) then erase (release s pyIt rvals) pyIt
      else s
  end.

(** The table before the hook has deleted anything. *)
Definition fresh (tbl : Table) : Sweep := {| PyTypeToGCThing := tbl; deleted := [] |}.

(** The [while] loop: one turn for each key of [order], the order in which
    the iterator reaches the entries. Erasing an entry does not move the
    others, so this is the order of the table the hook starts with. *)
Definition sweep_in (host : HostHeap) (order : list PyTypePtr) (s : Sweep) : Sweep :=
  foldl (visit host) s order.

(** [handleSharedPythonMonkeyMemory]: the callback registered with
    [JS_SetGCCallback]. A hash table hands out its entries in an order of its
    own; [order] is that order. *)
Definition handleSharedPythonMonkeyMemory (host : HostHeap) (order : list PyTypePtr)
    (status : JSGCStatus) (tbl : Table) : Sweep :=
  match status with
  | JSGC_BEGIN => sweep_in host order (fresh tbl)
  | JSGC_END => fresh tbl
  end.

(** [order] enumerates [tbl]: it has every key of the table once. *)
Definition enumerates (order : list PyTypePtr) (tbl : Table) : Prop :=
  order ≡ₚ (map_to_list tbl).*1.

(** [memoizePyTypeAndGCThing] *)
Definition memoizePyTypeAndGCThing (pyType : PyTypePtr) (thing : GCThing)
    (tbl : Table) : Table :=
  match tbl !! pyType with
  | None => <[pyType := [thing]]> tbl
  | Some gcVector => <[pyType := gcVector ++ [thing]]> tbl
  end.

(** No entry of the table lists a handle that has been deleted. *)
Definition consistent (s : Sweep) : Prop :=
  forall (rval : GCThing) (k : PyTypePtr) (rvals : list GCThing),
    rval ∈ deleted s -> PyTypeToGCThing s !! k = Some rvals -> rval ∉ rvals.

(** Some entry other than [pyIt] lists [rval]. *)
Definition listed_elsewhere (tbl : Table) (pyIt : PyTypePtr) (rval : GCThing) : Prop :=
  exists (k : PyTypePtr) (rvals : list GCThing),
    k <> pyIt /\ tbl !! k = Some rvals /\ rval ∈ rvals.

(** Some entry lists [rval]. *)
Definition listed (tbl : Table) (rval : GCThing) : Prop :=
  exists (k : PyTypePtr) (rvals : list GCThing), tbl !! k = Some rvals /\ rval ∈ rvals.

(** The state of the hook after the first [turns] turns of its loop. *)
Definition after_turns (host : HostHeap) (order : list PyTypePtr) (tbl : Table)
    (turns : nat) : Sweep :=
  sweep_in host (take turns order) (fresh tbl).

(** What the hook does with the entry [k], whose vector is [rvals]: the loop
    reaches it once, in a state [s] that still has it; an unreachable entry is
    erased and exactly those of its handles that no other entry of [s] lists
    are deleted; a reachable entry leaves the state as it is. *)
Definition processed (host : HostHeap) (order : list PyTypePtr) (tbl : Table)
    (k : PyTypePtr) (rvals : list GCThing) : Prop :=
  exists (before after : list PyTypePtr),
    order = before ++ k :: after /\ (k ∉ before) /\ (k ∉ after) /\
    let s := sweep_in host before (fresh tbl) in
    handleSharedPythonMonkeyMemory host order JSGC_BEGIN tbl
      = sweep_in host after (visit host s k) /\
    PyTypeToGCThing s !! k = Some rvals /\
    if host_unreachable (host k) then
      PyTypeToGCThing (visit host s k) = delete k (PyTypeToGCThing s) /\
      exists now : list GCThing,
        deleted (visit host s k) = deleted s ++ now /\
        forall rval : GCThing,
          rval ∈ now <-> rval ∈ rvals /\ ~ listed_elsewhere (PyTypeToGCThing s) k rval
    else visit host s k = s.

(** Sample data: three wrappers, the first held by the bridge alone, the
    second finalized, the third still referenced by host code; the handle 10
    is shared by the first two, the handle 12 by the last two. *)
Definition sample_host (p : PyTypePtr) : PyObject :=
  if (p =? 1)%N then {| ob_refcnt := 1; gc_finalized := false; tp_name := "str" |}
  else if (p =? 2)%N then {| ob_refcnt := 3; gc_finalized := true; tp_name := "str" |}
  else {| ob_refcnt := 2; gc_finalized := false; tp_name := "str" |}.

Definition sample_table : Table :=
  memoizePyTypeAndGCThing 1%N 11%N
    (memoizePyTypeAndGCThing 3%N 13%N
      (memoizePyTypeAndGCThing 3%N 12%N
        (memoizePyTypeAndGCThing 2%N 12%N
          (memoizePyTypeAndGCThing 2%N 10%N
            (memoizePyTypeAndGCThing 1%N 10%N ∅))))).

Definition sample_order : list PyTypePtr := [1%N; 2%N; 3%N].

End Bridge.


(** ** Engine values *)

Module JS.

(** [JS::SymbolCode]: the well-known symbols, then the codes of the others. *)
Inductive SymbolCode :=
| isConcatSpreadable | iterator | match_ | replace_ | search_ | species
| hasInstance | split_ | toPrimitive | toStringTag | unscopables
| asyncIterator | matchAll
| InSymbolRegistry | UniqueSymbol.

(** [jsid]: a property key is an interned string, a non-negative [int32]
    (the engine stores every key that is an array index this way, so that a
    string key never spells one) or a symbol. *)
Inductive PropertyKey :=
| StringId (s : string)
| IntId (i : Z)
| SymbolId (code : SymbolCode).

(** The native functions of the handler, as function pointers. *)
Inductive JSNative :=
| native_array_toString | native_array_valueOf
| native_array_entries | native_array_keys | native_array_values
| native_iterator_next.

Inductive JSProtoKey := JSProto_Iterator | JSProto_Uint8Array.

(** An [ArrayBuffer] object over memory it does not own: where its bytes
    start and how many there are ([size_t]). *)
Record ArrayBuffer := {
  buffer_id : N;
  data : Z;
  byteLength : Z
}.

(** [JS::Value] and the objects the handler makes or meets. Every object
    carries the identity it was allocated with. *)
Inductive Value :=
| UndefinedValue
| NullValue
| BooleanValue (b : bool)
| Int32Value (i : Z)
| DoubleValue (d : spec_float)
| StringValue (s : string)
| SymbolValue (code : SymbolCode)
| BigIntValue (z : Z)
| MagicValue
| ObjectValue (o : Object)
with Object :=
| PlainObject (id : N) (props : list (string * Value))
| ArrayObject (id : N) (items : list Value)
| FunctionObject (id : N) (call : JSNative) (nargs : N)
| ArrayBufferObject (ab : ArrayBuffer)
| ConstructorObject (key : JSProtoKey)
| DateObject (id : N) (fields : string -> Value)
| DeadProxyObject (id : N)
| OtherObject (id : N).

Inductive PropertyAttribute := Configurable | Enumerable | Writable.

(** [JS::PropertyDescriptor::Data(value, attrs)] *)
Record PropertyDescriptor := Data {
  value : Value;
  attributes : list PropertyAttribute
}.

(** [JS::ObjectOpResult]: [failReadOnly()] stores its code and returns
    [true]; the caller reads the code. *)
Inductive ObjectOpResult := Uninitialized | OkCode | JSMSG_READ_ONLY.

(** The part of a [JSContext] the handler depends on: the identity the next
    object gets, how many more objects the heap can take, whether the global
    has the [BytesIterator] class yet, and what
    [Uint8Array.prototype.constructor] holds ([None] when the prototype
    cannot be fetched). *)
Record JSContext := {
  allocated : N;
  heap_free : N;
  BytesIterator_defined : bool;
  Uint8Array_prototype : option (list (string * Value))
}.

(** Allocation of one object: its identity, or [None] when the heap is
    exhausted. *)
Definition allocate (cx : JSContext) : option (N * JSContext) :=
  if (heap_free cx =? 0)%N then None
  else Some (allocated cx,
             {| allocated := allocated cx + 1;
                heap_free := heap_free cx - 1;
                BytesIterator_defined := BytesIterator_defined cx;
                Uint8Array_prototype := Uint8Array_prototype cx |}).

Definition JS_NewFunction (cx : JSContext) (call : JSNative) (nargs : N)
    : option (Object * JSContext) :=
  match allocate cx with
  | None => None
  | Some (id, cx') => Some (FunctionObject id call nargs, cx')
  end.

Definition JS_NewPlainObject (cx : JSContext) : option (Object * JSContext) :=
  match allocate cx with
  | None => None
  | Some (id, cx') => Some (PlainObject id [], cx')
  end.

Definition NewArrayObject (cx : JSContext) (items : list Value)
    : option (Object * JSContext) :=
  match allocate cx with
  | None => None
  | Some (id, cx') => Some (ArrayObject id items, cx')
  end.

(** Assignment to a named property of a list of data properties. *)
Fixpoint assign (props : list (string * Value)) (name : string) (v : Value)
    : list (string * Value) :=
  match props with
  | [] => [(name, v)]
  | (n, w) :: rest =>
      if String.eqb n name then (n, v) :: rest else (n, w) :: assign rest name v
  end.

(** [JS_SetProperty] on a plain object; [None] is its [false]. *)
Definition JS_SetProperty (obj : Object) (name : string) (v : Value) : option Object :=
  match obj with
  | PlainObject id props => Some (PlainObject id (assign props name v))
  | _ => None
  end.

(** [JS_GetProperty] on a list of data properties: a missing property reads
    as [undefined]. *)
Fixpoint JS_GetProperty (props : list (string * Value)) (name : string) : Value :=
  match props with
  | [] => UndefinedValue
  | (n, w) :: rest => if String.eqb n name then w else JS_GetProperty rest name
  end.

(** What a call hands back: [Returned] with its result, [Failed] for the
    failure value ([false], [NULL]), and [Crashed] where the source leaves
    defined behaviour (a null pointer dereferenced, a value read as a kind it
    is not). *)
Inductive Outcome (A : Type) :=
| Returned (a : A)
| Failed
| Crashed.
Arguments Returned {A} a.
Arguments Failed {A}.
Arguments Crashed {A}.

End JS.

(** ** Memory *)

(** Byte-addressed memory. The bytes of a buffer are those from its [data]
    pointer on; [data[index]] reads one byte, wherever that lands. *)
Definition Memory := Z -> byte.

Definition uint8 (b : byte) : Z := Z.of_N (Byte.to_N b).

Definition load (mem : Memory) (data : Z) (index : Z) : Z := uint8 (mem (data + index)).

(** The bytes of a buffer, first to last. *)
Definition contents (mem : Memory) (ab : JS.ArrayBuffer) : list Z :=
  map (fun i : nat => load mem (JS.data ab) (Z.of_nat i))
      (seq 0 (Z.to_nat (JS.byteLength ab))).

(** ** The bytes proxy *)

(** Modelled from the spec: [idToIndex(cx, id, &index)] is defined with the
    base proxy handler, which is not among the sources; the design document
    (4.2, step 4) has it "parse the accessed key as an integer index".  Its
    arguments are the context and the key: it sees neither the proxy nor the
    length of the buffer. *)
Definition idToIndex (id : JS.PropertyKey) : option Z :=
  match id with
  | JS.IntId i => Some i
  | _ => None
  end.

Module PyBytesProxyHandler.
Import Py JS.

(** What the handler and its natives run in. *)
Record Runtime := {
  memory : Memory;
  cx : JSContext;
  py_err : option PyErr
}.

Definition with_cx (rt : Runtime) (cx' : JSContext) : Runtime :=
  {| memory := memory rt; cx := cx'; py_err := py_err rt |}.

(** [PyErr_SetString] and [PyErr_Format], once the message is formatted. *)
Definition PyErr_SetString (rt : Runtime) (e : PyExc) (msg : string) : Runtime :=
  {| memory := memory rt; cx := cx rt; py_err := Some {| exc := e; message := msg |} |}.

(** The reserved slots of a proxy: the wrapped host object and the
    [ArrayBuffer] over its bytes. *)
Record Proxy := {
  PyObjectSlot : PyObject;
  OtherSlot : ArrayBuffer
}.

(** [std::to_string] of a byte. *)
Definition to_string (b : Z) : string := NilZero.string_of_uint (N.to_uint (Z.to_N b)).

(** Lines 42-48: the loop of [array_valueOf], [count] turns from [index]. *)
Fixpoint valueOf_loop (mem : Memory) (data : Z) (index : Z) (count : nat)
    (valueOfString : string) : string :=
  match count with
  | O => valueOfString
  | S count' =>
      let separated :=
        if 0 <? index then (valueOfString ++ ",")%string else valueOfString in
      valueOf_loop mem data (index + 1) count'
        (separated ++ to_string (load mem data index))%string
  end.

(** [array_valueOf], called on a proxy. *)
Definition array_valueOf (rt : Runtime) (proxy : Proxy) : Outcome Value :=
  let arrayBuffer := OtherSlot proxy in
  Returned (StringValue
    (valueOf_loop (memory rt) (data arrayBuffer) 0
       (Z.to_nat (byteLength arrayBuffer)) EmptyString)).


Definition ITEM_KIND_KEY : Z := 0.
Definition ITEM_KIND_VALUE : Z := 1.
Definition ITEM_KIND_KEY_AND_VALUE : Z := 2.

(** The reserved slots of a [BytesIterator]. The two numeric slots only ever
    hold [Int32Value]s (lines 102, 215, 216), on which [JS::ToInt32] is the
    identity. *)
Record BytesIterator := {
  BytesIteratorSlotIteratedObject : ArrayBuffer;
  BytesIteratorSlotNextIndex : Z;
  BytesIteratorSlotItemKind : Z
}.

Definition SetNextIndex (thisObj : BytesIterator) (i : Z) : BytesIterator :=
  {| BytesIteratorSlotIteratedObject := BytesIteratorSlotIteratedObject thisObj;
     BytesIteratorSlotNextIndex := i;
     BytesIteratorSlotItemKind := BytesIteratorSlotItemKind thisObj |}.

(** Lines 107-136: the [value] of a step that is not the last. *)
Definition item_value (rt : Runtime) (arrayBuffer : ArrayBuffer)
    (nextIndex itemKind : Z) : option (Value * JSContext) :=
  if itemKind =? ITEM_KIND_VALUE then
    Some (Int32Value (load (memory rt) (data arrayBuffer) nextIndex), cx rt)
  else if itemKind =? ITEM_KIND_KEY_AND_VALUE then
    match NewArrayObject (cx rt)
            [Int32Value nextIndex;
             Int32Value (load (memory rt) (data arrayBuffer) nextIndex)] with
    | None => None
    | Some (array, cx') => Some (ObjectValue array, cx')
    end
  else
    Some (Int32Value nextIndex, cx rt).

(** [iterator_next], called on a [BytesIterator]: the outcome, the iterator
    after the call and the runtime after the call. *)
Definition iterator_next (rt : Runtime) (thisObj : BytesIterator)
    : Outcome Value * BytesIterator * Runtime :=
  let arrayBuffer := BytesIteratorSlotIteratedObject thisObj in
  let nextIndex := BytesIteratorSlotNextIndex thisObj in
  let itemKind := BytesIteratorSlotItemKind thisObj in
  match JS_NewPlainObject (cx rt) with
  | None => (Crashed, thisObj, rt)
  | Some (result, cx1) =>
      let rt1 := with_cx rt cx1 in
      let len := byteLength arrayBuffer in
      if nextIndex >=? len then
        match JS_SetProperty result "done" (BooleanValue true) with
        | None => (Failed, thisObj, rt1)
        | Some result => (Returned (ObjectValue result), thisObj, rt1)
        end
      else
        let thisObj' := SetNextIndex thisObj (to_int32 (nextIndex + 1)) in
        match JS_SetProperty result "done" (BooleanValue false) with
        | None => (Failed, thisObj', rt1)
        | Some result =>
            match item_value rt1 arrayBuffer nextIndex itemKind with
            | None => (Crashed, thisObj', rt1)
            | Some (v, cx2) =>
                match JS_SetProperty result "value" v with
                | None => (Failed, thisObj', with_cx rt1 cx2)
                | Some result => (Returned (ObjectValue result), thisObj', with_cx rt1 cx2)
                end
            end
        end
  end.

(** [DefineBytesIterator]: the class is put on the global, with one object
    for its prototype. *)
Definition DefineBytesIterator (cx : JSContext) : option JSContext :=
  match allocate cx with
  | None => None
  | Some (_, cx') =>
      Some {| allocated := allocated cx';
              heap_free := heap_free cx';
              BytesIterator_defined := true;
              Uint8Array_prototype := Uint8Array_prototype cx' |}
  end.

(** [array_iterator_func]: the iterator a proxy hands out, of the given kind. *)
Definition array_iterator_func (rt : Runtime) (proxy : Proxy) (itemKind : Z)
    : Outcome BytesIterator * Runtime :=
  let defined :=
    if BytesIterator_defined (cx rt) then Some (cx rt)
    else DefineBytesIterator (cx rt) in
  match defined with
  | None => (Failed, rt)
  | Some cx1 =>
      match allocate cx1 with
      | None => (Failed, with_cx rt cx1)
      | Some (_, cx2) =>
          (Returned {| BytesIteratorSlotIteratedObject := OtherSlot proxy;
                       BytesIteratorSlotNextIndex := 0;
                       BytesIteratorSlotItemKind := itemKind |},
           with_cx rt cx2)
      end
  end.

Definition array_entries (rt : Runtime) (proxy : Proxy) :=
  array_iterator_func rt proxy ITEM_KIND_KEY_AND_VALUE.

Definition array_keys (rt : Runtime) (proxy : Proxy) :=
  array_iterator_func rt proxy ITEM_KIND_KEY.

Definition array_values (rt : Runtime) (proxy : Proxy) :=
  array_iterator_func rt proxy ITEM_KIND_VALUE.

(** [JSMethodDef] and the table [array_methods]; the end of the list stands
    for its [NULL] entry. *)
Record JSMethodDef := { name : string; call : JSNative; nargs : N }.

Definition array_methods : list JSMethodDef :=
  [ {| name := "toString"; call := native_array_toString; nargs := 0 |};
    {| name := "valueOf"; call := native_array_valueOf; nargs := 0 |};
    {| name := "entries"; call := native_array_entries; nargs := 0 |};
    {| name := "keys"; call := native_array_keys; nargs := 0 |};
    {| name := "values"; call := native_array_values; nargs := 0 |} ].

(** [PyBytesProxyHandler::set]: the value it returns, the result code and the
    runtime after the call. *)
Definition set (rt : Runtime) (proxy : Proxy) (id : PropertyKey) (v receiver : Value)
    : bool * ObjectOpResult * Runtime :=
  let self := PyObjectSlot proxy in
  let rt' := PyErr_SetString rt PyExc_TypeError
    ("'" ++ substring 0 100 (tp_name self) ++ "' object has only read-only attributes")%string in
  (true, JSMSG_READ_ONLY, rt').

(** What [getOwnPropertyDescriptor] comes to: [Found desc] when it returns
    [true], with the descriptor it stored or [None] when it stored none;
    [Threw] when it returns [false]; [Null_dereference] where it would
    dereference a null pointer; [HostAttribute self id] for its last
    statement, the call
    [handleGetOwnPropertyDescriptor(cx, id, desc, PyObject_GetAttr(self, idToKey(cx, id)))]
    into the base handler, which is not among the sources: the answer is
    whatever that call gives for the attribute [id] of [self]. *)
Inductive Lookup :=
| Found (desc : option PropertyDescriptor)
| Threw
| Null_dereference
| HostAttribute (self : PyObject) (id : PropertyKey).

Section Handler.

(** The key-to-index conversion of the base handler. *)
Variable idToIndex : PropertyKey -> option Z.

(** The runtime that the last statement leaves (lines 403-407).
    [PyObject_GetAttr(self, idToKey(cx, id))] runs code of the host and, when
    the object has no such attribute, leaves an [AttributeError] in the error
    indicator; [handleGetOwnPropertyDescriptor], which is called on what it
    returns, belongs to the base handler and is not among the sources.
    [handleGetOwnPropertyDescriptor rt self id] is the runtime after the two,
    called in [rt] for the attribute [id] of [self]; nothing is assumed of
    it. *)
Variable handleGetOwnPropertyDescriptor : Runtime -> PyObject -> PropertyKey -> Runtime.

(** Lines 266-284: the first entry of the table whose name is the key. *)
Fixpoint find_method (methods : list JSMethodDef) (s : string) : option JSMethodDef :=
  match methods with
  | [] => None
  | m :: rest => if String.eqb s (name m) then Some m else find_method rest s
  end.

(** A fresh function object for a native, as a data descriptor. *)
Definition function_descriptor (rt : Runtime) (native : JSNative) (n : N)
    : Lookup * Runtime :=
  match JS_NewFunction (cx rt) native n with
  | None => (Threw, rt)
  | Some (funObj, cx') =>
      (Found (Some (Data (ObjectValue funObj) [Enumerable])), with_cx rt cx')
  end.

(** Lines 265-285. [None]: control reaches the next statement. *)
Definition method_lookup (rt : Runtime) (proxy : Proxy) (id : PropertyKey)
    : option (Lookup * Runtime) :=
  match id with
  | StringId s =>
      match find_method array_methods s with
      | Some m => Some (function_descriptor rt (call m) (nargs m))
      | None => None
      end
  | _ => None
  end.

(** Lines 287-363. *)
Definition property_lookup (rt : Runtime) (proxy : Proxy) (id : PropertyKey)
    : option (Lookup * Runtime) :=
  match id with
  | StringId s =>
      let arrayBuffer := OtherSlot proxy in
      if String.eqb s "length" || String.eqb s "byteLength" then
        Some (Found (Some (Data (Int32Value (to_int32 (byteLength arrayBuffer))) [])), rt)
      else if String.eqb s "buffer" then
        Some (Found (Some (Data (ObjectValue (ArrayBufferObject arrayBuffer)) [])), rt)
      else if String.eqb s "BYTES_PER_ELEMENT" then
        Some (Found (Some (Data (Int32Value 1) [])), rt)
      else if String.eqb s "byteOffset" then
        Some (Found (Some (Data (Int32Value 0) [])), rt)
      else if String.eqb s "constructor" then
        match Uint8Array_prototype (cx rt) with
        | None => Some (Threw, rt)
        | Some uint8ArrayPrototype =>
            match JS_GetProperty uint8ArrayPrototype "constructor" with
            | ObjectValue constructor =>
                Some (Found (Some (Data (ObjectValue constructor) [Enumerable])), rt)
            | _ => Some (Null_dereference, rt)
            end
        end
      else None
  | _ => None
  end.

(** Lines 365-382. *)
Definition symbol_lookup (rt : Runtime) (proxy : Proxy) (id : PropertyKey)
    : option (Lookup * Runtime) :=
  match id with
  | SymbolId code =>
      match code with
      | iterator => Some (function_descriptor rt native_array_values 0)
      | _ => Some (Found None, rt)
      end
  | _ => None
  end.

(** Lines 384-401. *)
Definition item_lookup (rt : Runtime) (proxy : Proxy) (id : PropertyKey)
    : option (Lookup * Runtime) :=
  match idToIndex id with
  | Some index =>
      let arrayBuffer := OtherSlot proxy in
      Some (Found (Some (Data (Int32Value (load (memory rt) (data arrayBuffer) index)) [])), rt)
  | None => None
  end.

(** Lines 403-407. *)
Definition attribute_lookup (rt : Runtime) (proxy : Proxy) (id : PropertyKey)
    : Lookup * Runtime :=
  let self := PyObjectSlot proxy in
  (HostAttribute self id, handleGetOwnPropertyDescriptor rt self id).

(** One statement after the other: the first that returns decides. *)
Definition or_else {A : Type} (first : option A) (next : A) : A :=
  match first with
  | Some a => a
  | None => next
  end.

(** [PyBytesProxyHandler::getOwnPropertyDescriptor] *)
Definition getOwnPropertyDescriptor (rt : Runtime) (proxy : Proxy) (id : PropertyKey)
    : Lookup * Runtime :=
  or_else (method_lookup rt proxy id)
 (or_else (property_lookup rt proxy id)
 (or_else (symbol_lookup rt proxy id)
 (or_else (item_lookup rt proxy id)
          (attribute_lookup rt proxy id)))).

End Handler.

(** The context after [n] more allocations. *)
Definition allocations (n : N) (cx : JSContext) : JSContext :=
  {| allocated := allocated cx + n;
     heap_free := heap_free cx - n;
     BytesIterator_defined := BytesIterator_defined cx;
     Uint8Array_prototype := Uint8Array_prototype cx |}.



(** The text of the error of a refused write. *)
Definition read_only_message (name : string) : string :=
  ("'" ++ name ++ "' object has only read-only attributes")%string.

(** [calls] calls of [next()] one after the other: the outcomes in order,
    the iterator and the runtime at the end. *)
Fixpoint repeated_next (calls : nat) (rt : Runtime) (thisObj : BytesIterator)
    : list (Outcome Value) * BytesIterator * Runtime :=
  match calls with
  | O => ([], thisObj, rt)
  | S calls' =>
      let '(outcome, thisObj', rt') := iterator_next rt thisObj in
      let '(outcomes, last, rt'') := repeated_next calls' rt' thisObj' in
      (outcome :: outcomes, last, rt'')
  end.

(** The iteration results [{done: true}] and [{done: false, value: v}]. *)
Definition done_result (id : N) : Value :=
  ObjectValue (PlainObject id [("done"%string, BooleanValue true)]).

Definition value_result (id : N) (v : Value) : Value :=
  ObjectValue (PlainObject id [("done"%string, BooleanValue false); ("value"%string, v)]).

(** A realm whose [Uint8Array.prototype] has not been tampered with. *)
Definition standard_Uint8Array_prototype : list (string * Value) :=
  [("constructor"%string, ObjectValue (ConstructorObject JSProto_Uint8Array));
   ("BYTES_PER_ELEMENT"%string, Int32Value 1)].

(** The step of the resolution a key is settled by. *)
Inductive Step :=
| NamedMethod (m : JSMethodDef)
| SyntheticProperty
| IterationSymbol
| OtherSymbol
| NumericIndex (index : Z)
| HostLookup.

Definition synthetic_names : list string :=
  ["length"; "byteLength"; "buffer"; "BYTES_PER_ELEMENT"; "byteOffset"; "constructor"]%string.

Definition is_synthetic (s : string) : bool := existsb (String.eqb s) synthetic_names.

Definition step_of (idToIndex : PropertyKey -> option Z) (id : PropertyKey) : Step :=
  match id with
  | StringId s =>
      match find_method array_methods s with
      | Some m => NamedMethod m
      | None =>
          if is_synthetic s then SyntheticProperty
          else match idToIndex id with
               | Some index => NumericIndex index
               | None => HostLookup
               end
      end
  | SymbolId iterator => IterationSymbol
  | SymbolId _ => OtherSymbol
  | IntId _ =>
      match idToIndex id with
      | Some index => NumericIndex index
      | None => HostLookup
      end
  end.

(** The resolution as the design document words it (4.2): named methods,
    then synthetic properties, then the iteration symbol, then a numeric
    index within [0, length), and for every other key the lookup on the
    wrapped object. *)
Definition resolution_as_documented (idToIndex : PropertyKey -> option Z)
    (handleGetOwnPropertyDescriptor : Runtime -> PyObject -> PropertyKey -> Runtime)
    (rt : Runtime) (proxy : Proxy) (id : PropertyKey) : Lookup * Runtime :=
  or_else (method_lookup rt proxy id)
 (or_else (property_lookup rt proxy id)
 (or_else (match id with
           | SymbolId iterator => Some (function_descriptor rt native_array_values 0)
           | _ => None
           end)
 (or_else (match idToIndex id with
           | Some index =>
               if (0 <=? index) && (index <? byteLength (OtherSlot proxy))
               then item_lookup idToIndex rt proxy id else None
           | None => None
           end)
          (attribute_lookup handleGetOwnPropertyDescriptor rt proxy id)))).

(** Sample data: the bytes 10, 20, 30 at the addresses 1000 to 1002, the byte
    77 at 1005, zeros everywhere else; a [bytes] object over them and its
    proxy. *)
Definition sample_memory : Memory :=
  fun a =>
    if a =? 1000 then x0a else if a =? 1001 then x14 else if a =? 1002 then x1e
    else if a =? 1005 then x4d else x00.

Definition sample_buffer : ArrayBuffer :=
  {| buffer_id := 1; data := 1000; byteLength := 3 |}.

Definition sample_bytes : PyObject :=
  {| ob_refcnt := 2; gc_finalized := false; tp_name := "bytes" |}.

Definition sample_proxy : Proxy :=
  {| PyObjectSlot := sample_bytes; OtherSlot := sample_buffer |}.

Definition sample_cx : JSContext :=
  {| allocated := 100;
     heap_free := 1000;
     BytesIterator_defined := false;
     Uint8Array_prototype := Some standard_Uint8Array_prototype |}.

Definition sample_runtime : Runtime :=
  {| memory := sample_memory; cx := sample_cx; py_err := None |}.


(** A host on which the object has none of the attributes asked for, and a
    base handler that leaves the error of the failed lookup where it is. *)
Definition sample_handleGetOwnPropertyDescriptor (rt : Runtime) (self : PyObject)
    (id : PropertyKey) : Runtime :=
  PyErr_SetString rt PyExc_AttributeError
    ("'" ++ tp_name self ++ "' object has no such attribute")%string.




(** The outcomes of [calls] calls of [next()] on the iterator that a factory
    hands out for the sample proxy. *)
Definition sample_iteration
    (factory : Runtime -> Proxy -> Outcome BytesIterator * Runtime) (calls : nat)
    : list (Outcome Value) :=
  match factory sample_runtime sample_proxy with
  | (Returned thisObj, rt) => fst (fst (repeated_next calls rt thisObj))
  | _ => []
  end.

End PyBytesProxyHandler.

(** ** Engine exceptions *)

Module Exceptions.
Import Py.

(** [strlen]: a C string ends at its first NUL. *)
Fixpoint c_str (s : string) : string :=
  match s with
  | EmptyString => EmptyString
  | String c rest => if Ascii.eqb c zero then EmptyString else String c (c_str rest)
  end.

(** A text without NUL: read as a C string, it is all there. *)
Definition NUL_free (s : string) : Prop := c_str s = s.

(** [JSErrorReport], as far as it is read. [filename] is a [const char *]:
    [None] is the null pointer. [linebuf] is a [const char16_t *], [None]
    when null, and otherwise the bytes of the line in UTF-8, which is what
    [convert.to_bytes] makes of a line of well-formed UTF-16. *)
Record JSErrorReport := {
  filename : option string;
  lineno : N;
  linebuf : option string;
  tokenOffset : nat
}.

(** An exception pending on the context: whether its stack can be fetched
    ([JS::GetPendingExceptionStack]), whether the report builder initializes,
    and what the builder and the stack then give. The stack is the text
    [BuildStackString] renders. *)
Record PendingException := {
  stack_retrieved : bool;
  report_initialized : bool;
  report : option JSErrorReport;
  toStringResult : string;
  stack : option string
}.

(** [std::string(n, ' ')] *)
Fixpoint spaces (n : nat) : string :=
  match n with
  | O => EmptyString
  | S n' => String " " (spaces n')
  end.

Definition newline : string := String (ascii_of_nat 10) EmptyString.

Definition decimal (n : N) : string := NilZero.string_of_uint (N.to_uint n).

(** A [std::stringstream] that is only written to: the characters it holds,
    and whether an insertion has failed. Once [badbit] is set, every later
    insertion is dropped. *)
Record stringstream := { str : string; badbit : bool }.

Definition insert (out : stringstream) (text : string) : stringstream :=
  if badbit out then out else {| str := str out ++ text; badbit := false |}.


(** [out << s] for a [const char *]: the characters up to the first NUL; the
    null pointer sets [badbit] and writes nothing. *)
Definition insert_chars (out : stringstream) (s : option string) : stringstream :=
  match s with
  | Some chars => insert out (c_str chars)
  | None => {| str := str out; badbit := true |}
  end.

(** [out << s] for a [std::string]: all of it. *)
Definition insert_string (out : stringstream) (s : string) : stringstream :=
  insert out s.

(** [out << n] for an [unsigned]. *)
Definition insert_unsigned (out : stringstream) (n : N) : stringstream :=
  insert out (decimal n).

(** Lines 51-66: the location and the offending line. *)
Definition insert_report (out : stringstream) (errorReport : option JSErrorReport)
    : stringstream :=
  match errorReport with
  | None => out
  | Some r =>
      let offsetSpaces := spaces (tokenOffset r) in
      let out :=
        insert_chars
          (insert_unsigned
             (insert_chars
                (insert_chars (insert_chars out (Some "Error in file "%string))
                   (filename r))
                (Some ", on line "%string))
             (lineno r))
          (Some (":" ++ newline)%string) in
      (* [std::u16string u16linebuf(errorReport->linebuf())] takes the line
         up to its first NUL *)
      let linebuf_text := match linebuf r with Some l => c_str l | None => EmptyString end in
      if (String.length linebuf_text =? 0)%nat then out
      else
        insert_chars
          (insert_string
             (insert_chars (insert_string out linebuf_text) (Some newline))
             offsetSpaces)
          (Some ("^" ++ newline)%string)
  end.

(** Lines 71-76: the stack trace. [StrType(cx, stackStr).getValue()] is a
    [const char *]. *)
Definition insert_stack (out : stringstream) (stackObj : option string) : stringstream :=
  match stackObj with
  | None => out
  | Some rendered =>
      insert_chars (insert_chars out (Some ("Stack Trace: " ++ newline)%string))
        (Some rendered)
  end.

(** Lines 49-76: what [outStrStream] holds at the end. *)
Definition outStrStream (e : PendingException) : stringstream :=
  let out := {| str := EmptyString; badbit := false |} in
  let out := insert_report out (report e) in
  let out := insert_chars (insert_chars out (Some (toStringResult e))) (Some newline) in
  insert_stack out (stack e).

(** [setSpiderMonkeyException]: the error it leaves in the host's indicator,
    given what is pending on the context. [PyErr_SetString] takes a
    [const char *]: of [outStrStream.str()] it takes the characters up to
    the first NUL. *)
Definition setSpiderMonkeyException (pending : option PendingException) : PyErr :=
  match pending with
  | None =>
      {| exc := SpiderMonkeyError;
         message := "Spidermonkey failed, but spidermonkey did not set an exception." |}
  | Some e =>
      if negb (stack_retrieved e) then
        {| exc := SpiderMonkeyError;
           message := "Spidermonkey set an exception, but was unable to retrieve it." |}
      else if negb (report_initialized e) then
        {| exc := SpiderMonkeyError;
           message := "Spidermonkey set an exception, but could not initialize the error report." |}
      else
        {| exc := SpiderMonkeyError;
           message := c_str (str (outStrStream e)) |}
  end.

End Exceptions.

(** ** The evaluator *)

Module PythonMonkey.
Import Py JS Exceptions.

(** Host values, by what they hold. *)
Inductive PyValue :=
| Py_None
| PyBool (b : bool)
| PyLong (z : Z)
| PyFloat (d : spec_float)
| PyUnicode (s : string)
| PyBytes (b : list byte)
| PyDateTime (year month day hour minute second usecond : Z).

(** Modelled from the spec: the wrapper classes [BoolType], [FloatType] and
    [StrType] are declared in headers that are not among the sources. The
    design document has them as the scalar coercions (bool, number, string),
    "one-shot conversions": each wrapper holds the host bool, float or str
    made from the engine value it is built from. *)
Inductive PyType :=
| BoolType (b : bool)
| FloatType (n : spec_float)
| StrType (s : string).

Definition getPyObject (t : PyType) : PyValue :=
  match t with
  | BoolType b => PyBool b
  | FloatType n => PyFloat n
  | StrType s => PyUnicode s
  end.

(** The globals of the module, the heap pointer of [new], standard output and
    the host's error indicator. *)
Record Globals := {
  PyTypeToGCThing : gmap Bridge.PyTypePtr (list Bridge.GCThing);
  next_address : N;
  stdout : list string;
  py_err : option PyErr
}.

Definition new (g : Globals) : N * Globals :=
  (next_address g,
   {| PyTypeToGCThing := PyTypeToGCThing g;
      next_address := next_address g + 1;
      stdout := stdout g;
      py_err := py_err g |}).

Definition printf (g : Globals) (text : string) : Globals :=
  {| PyTypeToGCThing := PyTypeToGCThing g;
     next_address := next_address g;
     stdout := stdout g ++ [text];
     py_err := py_err g |}.

Definition PyErr_SetString (g : Globals) (e : PyExc) (msg : string) : Globals :=
  {| PyTypeToGCThing := PyTypeToGCThing g;
     next_address := next_address g;
     stdout := stdout g;
     py_err := Some {| exc := e; message := msg |} |}.

Definition memoize (g : Globals) (pyType : Bridge.PyTypePtr) (thing : Bridge.GCThing)
    : Globals :=
  {| PyTypeToGCThing := Bridge.memoizePyTypeAndGCThing pyType thing (PyTypeToGCThing g);
     next_address := next_address g;
     stdout := stdout g;
     py_err := py_err g |}.

(** The tests and accessors of [JS::Value]. *)
Definition isUndefined (v : Value) : bool := match v with UndefinedValue => true | _ => false end.
Definition isNull (v : Value) : bool := match v with NullValue => true | _ => false end.
Definition isBoolean (v : Value) : bool := match v with BooleanValue _ => true | _ => false end.
Definition isNumber (v : Value) : bool :=
  match v with Int32Value _ | DoubleValue _ => true | _ => false end.
Definition isString (v : Value) : bool := match v with StringValue _ => true | _ => false end.
Definition isSymbol (v : Value) : bool := match v with SymbolValue _ => true | _ => false end.
Definition isBigInt (v : Value) : bool := match v with BigIntValue _ => true | _ => false end.
Definition isObject (v : Value) : bool := match v with ObjectValue _ => true | _ => false end.
Definition isMagic (v : Value) : bool := match v with MagicValue => true | _ => false end.

Definition toBoolean (v : Value) : bool := match v with BooleanValue b => b | _ => false end.

Definition toString (v : Value) : string := match v with StringValue s => s | _ => EmptyString end.

(** An [int32] as a double: exact. *)
Definition double_of_int32 (i : Z) : spec_float := binary_normalize 53 1024 i 0 false.

(** [toNumber]: the double of a number; [None] on any other value, where the
    accessor reads bits that are not a number. *)
Definition toNumber (v : Value) : option spec_float :=
  match v with
  | Int32Value i => Some (double_of_int32 i)
  | DoubleValue d => Some d
  | _ => None
  end.

(** A double converted to [int], towards zero; [None] when it has no integer
    part to give or the integer part is no [int], where the conversion is
    undefined. *)
Definition to_int (d : spec_float) : option Z :=
  match d with
  | S754_zero _ => Some 0
  | S754_finite s m e =>
      let magnitude := if 0 <=? e then Z.shiftl (Zpos m) e else Z.shiftr (Zpos m) (- e) in
      let truncated := if s then - magnitude else magnitude in
      if (INT32_MIN <=? truncated) && (truncated <=? INT32_MAX) then Some truncated
      else None
  | _ => None
  end.

(** [JS::ObjectIsDate]: [None] when the call fails, as it does on the proxy
    of a dead object; otherwise what it stores in [*isDate]. *)
Definition ObjectIsDate (obj : Object) : option bool :=
  match obj with
  | DateObject _ _ => Some true
  | DeadProxyObject _ => None
  | _ => Some false
  end.

(** [JS_CallFunctionName] with no arguments on an object of the result: a
    date answers with its field; on anything else the call fails and leaves
    the rooted result [undefined]. *)
Definition JS_CallFunctionName (obj : Object) (method : string) : Value :=
  match obj with
  | DateObject _ fields => fields method
  | _ => UndefinedValue
  end.

Definition plus_one (d : spec_float) : spec_float := SFadd 53 1024 d (double_of_int32 1).

(** [%i] of an [int]. *)
Definition decimal_int (z : Z) : string :=
  if z <? 0 then ("-" ++ decimal (Z.to_N (- z)))%string else decimal (Z.to_N z).

(** The calendar of the host's [datetime]: the years it holds, and the days
    of a month. *)
Definition MINYEAR : Z := 1.
Definition MAXYEAR : Z := 9999.

Definition is_leap (year : Z) : bool :=
  (year mod 4 =? 0) && (negb (year mod 100 =? 0) || (year mod 400 =? 0)).

Definition days_in_month (year month : Z) : Z :=
  if (month =? 2) && is_leap year then 29
  else nth (Z.to_nat month) [0; 31; 28; 31; 30; 31; 30; 31; 31; 30; 31; 30; 31] 0.

(** [PyDateTime_FromDateAndTime]: the host's constructor of a [datetime]. It
    checks the fields, the date first and then the time, and on the first
    that is out of range it sets a [ValueError] and returns [NULL]. *)
Definition PyDateTime_FromDateAndTime (g : Globals)
    (year month day hour minute second usecond : Z) : Outcome PyValue * Globals :=
  let refuse (msg : string) := (Failed, PyErr_SetString g PyExc_ValueError msg) in
  if (year <? MINYEAR) || (MAXYEAR <? year) then
    refuse ("year " ++ decimal_int year ++ " is out of range")%string
  else if (month <? 1) || (12 <? month) then refuse "month must be in 1..12"%string
  else if (day <? 1) || (days_in_month year month <? day) then
    refuse "day is out of range for month"%string
  else if (hour <? 0) || (23 <? hour) then refuse "hour must be in 0..23"%string
  else if (minute <? 0) || (59 <? minute) then refuse "minute must be in 0..59"%string
  else if (second <? 0) || (59 <? second) then refuse "second must be in 0..59"%string
  else if (usecond <? 0) || (999999 <? usecond) then
    refuse "microsecond must be in 0..999999"%string
  else (Returned (PyDateTime year month day hour minute second usecond), g).

(** Lines 142-162: the fields of the date, read as numbers and passed on as
    [int]s; what the host's constructor returns is returned as it is. *)
Definition date_of (g : Globals) (obj : Object) : Outcome PyValue * Globals :=
  match toNumber (JS_CallFunctionName obj "getFullYear"),
        toNumber (JS_CallFunctionName obj "getMonth"),
        toNumber (JS_CallFunctionName obj "getDate"),
        toNumber (JS_CallFunctionName obj "getHours"),
        toNumber (JS_CallFunctionName obj "getMinutes"),
        toNumber (JS_CallFunctionName obj "getSeconds"),
        toNumber (JS_CallFunctionName obj "getMilliseconds") with
  | Some year, Some month, Some day, Some hour, Some minute, Some second, Some usecond =>
      match to_int year, to_int (plus_one month), to_int day, to_int hour,
            to_int minute, to_int second, to_int usecond with
      | Some y, Some mo, Some d, Some h, Some mi, Some s, Some us =>
          PyDateTime_FromDateAndTime g y mo d h mi s us
      | _, _, _, _, _, _, _ => (Crashed, g)
      end
  | _, _, _, _, _, _, _ => (Crashed, g)
  end.

(** What [JS::Evaluate] comes to: [true] with the value it stored in the
    root, or [false] with what it left pending on the context. *)
Inductive Evaluation :=
| Completed (v : Value)
| Raised (pending : option PendingException).

Section Engine.

(** The engine, as far as [eval] calls it: whether the source text
    initializes, and what evaluating it comes to. *)
Variable source_init : string -> bool.
Variable Evaluate : string -> Evaluation.

(** Lines 113-174: the result translated to a host value. [rval] is the
    address of the persistent root that holds [v]. *)
Definition translate (g : Globals) (rval : Bridge.GCThing) (v : Value)
    : Outcome PyValue * Globals :=
  let finish (returnValue : option PyType) (g : Globals) :=
    match returnValue with
    | Some t => (Returned (getPyObject t), g)
    | None => (Returned Py_None, g)
    end in
  if isUndefined v then
    finish None (printf g "undefined type is not handled by PythonMonkey yet")
  else if isNull v then
    finish None (printf g "null type is not handled by PythonMonkey yet")
  else if isBoolean v then
    let (_, g) := new g in
    finish (Some (BoolType (toBoolean v))) g
  else if isNumber v then
    match toNumber v with
    | Some n => let (_, g) := new g in finish (Some (FloatType n)) g
    | None => (Crashed, g)
    end
  else if isString v then
    let (returnValue, g) := new g in
    finish (Some (StrType (toString v))) (memoize g returnValue rval)
  else if isSymbol v then
    finish None (printf g "symbol type is not handled by PythonMonkey yet")
  else if isBigInt v then
    finish None (printf g "bigint type is not handled by PythonMonkey yet")
  else if isObject v then
    match v with
    | ObjectValue obj =>
        let (isDate, g) := new g in
        (* line 141 tests the call and the pointer [isDate], which is never
           null, not the flag the pointer leads to *)
        match ObjectIsDate obj with
        | Some _ => date_of g obj
        | None => finish None g
        end
    | _ => (Crashed, g)
    end
  else if isMagic v then
    finish None (printf g "magic type is not handled by PythonMonkey yet")
  else finish None g.

(** [eval] *)
Definition eval (g : Globals) (args : list PyValue) : Outcome PyValue * Globals :=
  match args with
  | [] => (Crashed, g)
  | arg :: _ =>
      let (_, g) := new g in
      match arg with
      | PyUnicode code =>
          if negb (source_init (c_str code)) then
            (Failed, PyErr_SetString g PyExc_RuntimeError
                       "Spidermonkey could not initialize with given JS code.")
          else
            let (rval, g) := new g in
            match Evaluate (c_str code) with
            | Raised _ =>
                (Failed, PyErr_SetString g PyExc_RuntimeError
                           "Spidermonkey could not evaluate the given JS code.")
            | Completed v => translate g rval v
            end
      | _ =>
          (Failed, PyErr_SetString g PyExc_TypeError
                     "pythonmonkey.eval expects a string as its first argument")
      end
  end.

End Engine.

(** The engine values [eval] has no host value for. *)
Definition unsupported (v : Value) : bool :=
  isUndefined v || isNull v || isSymbol v || isBigInt v || isMagic v.

Definition category (v : Value) : string :=
  match v with
  | UndefinedValue => "undefined"
  | NullValue => "null"
  | SymbolValue _ => "symbol"
  | BigIntValue _ => "bigint"
  | MagicValue => "magic"
  | _ => EmptyString
  end.

(** The notice printed for such a value. *)
Definition notice (v : Value) : string :=
  (category v ++ " type is not handled by PythonMonkey yet")%string.

(** The globals after [n] more calls of [new]. *)
Definition news (n : N) (g : Globals) : Globals :=
  {| PyTypeToGCThing := PyTypeToGCThing g;
     next_address := next_address g + n;
     stdout := stdout g;
     py_err := py_err g |}.

(** Sample data: an engine that knows a handful of programs, and the
    exception it raises for one of them. *)
Definition sample_exception : PendingException :=
  {| stack_retrieved := true;
     report_initialized := true;
     report := Some {| filename := Some "noname"%string;
                       lineno := 1;
                       linebuf := Some "  throw new Error('boom')"%string;
                       tokenOffset := 2 |};
     toStringResult := "Error: boom";
     stack := Some "  @noname:1:9"%string |}.



(** Two dates of the engine: 28 February 2023, 12:30:45.678, and the last
    day a [Date] holds, 13 September 275760. *)
Definition sample_Date (year month day hours minutes seconds milliseconds : Z) : Object :=
  DateObject 7 (fun method =>
    if String.eqb method "getFullYear" then Int32Value year
    else if String.eqb method "getMonth" then Int32Value month
    else if String.eqb method "getDate" then Int32Value day
    else if String.eqb method "getHours" then Int32Value hours
    else if String.eqb method "getMinutes" then Int32Value minutes
    else if String.eqb method "getSeconds" then Int32Value seconds
    else if String.eqb method "getMilliseconds" then Int32Value milliseconds
    else UndefinedValue).

Definition sample_Evaluate_Date (code : string) : Evaluation :=
  if String.eqb code "new Date(2023, 1, 28, 12, 30, 45, 678)" then
    Completed (ObjectValue (sample_Date 2023 1 28 12 30 45 678))
  else if String.eqb code "new Date(8.64e15)" then
    Completed (ObjectValue (sample_Date 275760 8 13 0 0 0 0))
  else Raised None.

Definition sample_Evaluate (code : string) : Evaluation :=
  if String.eqb code "undefined" then Completed UndefinedValue
  else if String.eqb code "null" then Completed NullValue
  else if String.eqb code "Symbol()" then Completed (SymbolValue UniqueSymbol)
  else if String.eqb code "10n" then Completed (BigIntValue 10)
  else if String.eqb code "true" then Completed (BooleanValue true)
  else if String.eqb code "42" then Completed (Int32Value 42)
  else if String.eqb code "'abc'" then Completed (StringValue "abc")
  else if String.eqb code "  throw new Error('boom')" then Raised (Some sample_exception)
  else Raised None.

Definition sample_source_init (code : string) : bool := true.

Definition sample_globals : Globals :=
  {| PyTypeToGCThing := ∅; next_address := 500; stdout := []; py_err := None |}.

End PythonMonkey.

(** ** Registration in sequence, and the collection as the host calls it *)

Module Collector.
Import Py JS.

(** The registrations [pairs], made one after the other. *)
Definition memoize_all (pairs : list (Bridge.PyTypePtr * Bridge.GCThing))
    (tbl : gmap Bridge.PyTypePtr (list Bridge.GCThing))
    : gmap Bridge.PyTypePtr (list Bridge.GCThing) :=
  foldl (fun t ph => Bridge.memoizePyTypeAndGCThing ph.1 ph.2 t) tbl pairs.

(** The handles that [pairs] registers for the wrapper [k], in order. *)
Definition registered_for (k : Bridge.PyTypePtr)
    (pairs : list (Bridge.PyTypePtr * Bridge.GCThing)) : list Bridge.GCThing :=
  (filter (fun ph => ph.1 = k) pairs).*2.

(** How often [rval] is in a log. *)
Definition occurrences (rval : Bridge.GCThing) (log : list Bridge.GCThing) : nat :=
  length (filter (fun r => r = rval) log).

(** [JS_GC]: a full collection. The engine calls the callback that
    [PyInit_pythonmonkey] registers with [JS_SetGCCallback] when the cycle
    begins and again when it ends. *)
Definition JS_GC (host : Bridge.HostHeap) (order : list Bridge.PyTypePtr)
    (tbl : gmap Bridge.PyTypePtr (list Bridge.GCThing)) : Bridge.Sweep :=
  let begun := Bridge.handleSharedPythonMonkeyMemory host order Bridge.JSGC_BEGIN tbl in
  let ended := Bridge.handleSharedPythonMonkeyMemory host order Bridge.JSGC_END
                 (Bridge.PyTypeToGCThing begun) in
  {| Bridge.PyTypeToGCThing := Bridge.PyTypeToGCThing ended;
     Bridge.deleted := Bridge.deleted begun ++ Bridge.deleted ended |}.

(** [collect]: what it returns, the globals after the call, and the roots the
    collection deleted. *)
Definition collect (host : Bridge.HostHeap) (order : list Bridge.PyTypePtr)
    (g : PythonMonkey.Globals)
    : Outcome PythonMonkey.PyValue * PythonMonkey.Globals * list Bridge.GCThing :=
  let swept := JS_GC host order (PythonMonkey.PyTypeToGCThing g) in
  (Returned PythonMonkey.Py_None,
   {| PythonMonkey.PyTypeToGCThing := Bridge.PyTypeToGCThing swept;
      PythonMonkey.next_address := PythonMonkey.next_address g;
      PythonMonkey.stdout := PythonMonkey.stdout g;
      PythonMonkey.py_err := PythonMonkey.py_err g |},
   Bridge.deleted swept).


(** Every address in the table, wrapper or root, was handed out by [new]
    before. *)
Definition allocated_before (g : PythonMonkey.Globals) : Prop :=
  forall (k : Bridge.PyTypePtr) (rvals : list Bridge.GCThing),
    PythonMonkey.PyTypeToGCThing g !! k = Some rvals ->
    (k < PythonMonkey.next_address g)%N
    /\ forall r : Bridge.GCThing, r ∈ rvals -> (r < PythonMonkey.next_address g)%N.


End Collector.

(** ** An iteration as its consumer sees it *)

Module Iteration.
Import Py JS.






End Iteration.

(** * Properties *)

(** ** The sweep *)

Module BridgeFacts.
Import Py Bridge.

Section Sweep.

Variable host : HostHeap.

Lemma found_true_iff (tbl : Table) (pyIt : PyTypePtr) (rval : GCThing) :
  found tbl pyIt rval = true <-> listed_elsewhere tbl pyIt rval.
Proof.
  unfold found, listed_elsewhere, also_related. rewrite existsb_exists. split.
  - intros [[k rvals] [Hin Hb]]. apply andb_true_iff in Hb as [Hk Hr].
    apply bool_decide_eq_true in Hk. apply bool_decide_eq_true in Hr.
    exists k, rvals. repeat split; try assumption.
    apply elem_of_map_to_list. now apply list_elem_of_In.
  - intros (k & rvals & Hk & Hlk & Hr). exists (k, rvals). split.
    + apply list_elem_of_In. now apply elem_of_map_to_list.
    + apply andb_true_iff. split; now apply bool_decide_eq_true.
Qed.

Lemma found_false_iff (tbl : Table) (pyIt : PyTypePtr) (rval : GCThing) :
  found tbl pyIt rval = false <-> ~ listed_elsewhere tbl pyIt rval.
Proof.
  rewrite <- found_true_iff. destruct (found tbl pyIt rval); split; intros; congruence.
Qed.

Lemma release_related_log (tbl : Table) (pyIt : PyTypePtr) (rvals log : list GCThing) :
  release_related tbl pyIt rvals log
  = log ++ filter (fun rval => found tbl pyIt rval = false) rvals.
Proof.
  revert log. induction rvals as [|rval rest IH]; intros log; simpl.
  - now rewrite app_nil_r.
  - rewrite IH. destruct (found tbl pyIt rval) eqn:E.
    + rewrite filter_cons_False by congruence. reflexivity.
    + rewrite filter_cons_True by assumption. now rewrite <- app_assoc.
Qed.

Lemma visit_lookup (s : Sweep) (pyIt k : PyTypePtr) :
  PyTypeToGCThing (visit host s pyIt) !! k
  = if bool_decide (k = pyIt) && host_unreachable (host pyIt) then None
    else PyTypeToGCThing s !! k.
Proof.
  unfold visit. destruct (PyTypeToGCThing s !! pyIt) as [rvals|] eqn:E.
  - destruct (host_unreachable (host pyIt)); simpl.
    + case_bool_decide as Hk; simpl.
      * subst k. apply lookup_delete_eq.
      * now apply lookup_delete_ne.
    + now rewrite andb_false_r.
  - case_bool_decide as Hk; simpl; [|reflexivity].
    subst k. destruct (host_unreachable (host pyIt)); now rewrite ?E.
Qed.

Lemma visit_consistent (s : Sweep) (pyIt : PyTypePtr) :
  consistent s -> consistent (visit host s pyIt).
Proof.
  intros Hs. unfold visit.
  destruct (PyTypeToGCThing s !! pyIt) as [rvals|] eqn:E; [|assumption].
  destruct (host_unreachable (host pyIt)); [|assumption].
  intros rval k rvals' Hdel Hk Hin. unfold erase, release in *. simpl in *.
  destruct (decide (k = pyIt)) as [->|Hne].
  { now rewrite lookup_delete_eq in Hk. }
  rewrite lookup_delete_ne in Hk by congruence.
  rewrite release_related_log in Hdel.
  apply elem_of_app in Hdel as [Hold|Hnew].
  - exact (Hs rval k rvals' Hold Hk Hin).
  - apply list_elem_of_filter in Hnew as [Hf _].
    apply found_false_iff in Hf. apply Hf. now exists k, rvals'.
Qed.

Lemma sweep_in_consistent (order : list PyTypePtr) (s : Sweep) :
  consistent s -> consistent (sweep_in host order s).
Proof.
  revert s. induction order as [|pyIt order IH]; intros s Hs; simpl.
  - assumption.
  - apply IH. now apply visit_consistent.
Qed.

Lemma fresh_consistent (tbl : Table) : consistent (fresh tbl).
Proof. intros rval k rvals Hdel. simpl in Hdel. now apply elem_of_nil in Hdel. Qed.

Lemma sweep_in_lookup (order : list PyTypePtr) (s : Sweep) (k : PyTypePtr) :
  PyTypeToGCThing (sweep_in host order s) !! k
  = if bool_decide (k ∈ order) && host_unreachable (host k) then None
    else PyTypeToGCThing s !! k.
Proof.
  unfold sweep_in. revert s. induction order as [|pyIt order IH]; intros s; simpl.
  - reflexivity.
  - rewrite IH, visit_lookup.
    destruct (decide (k = pyIt)) as [->|Hne].
    + rewrite (bool_decide_eq_true_2 (pyIt ∈ pyIt :: order)) by apply list_elem_of_here.
      rewrite (bool_decide_eq_true_2 (pyIt = pyIt)) by reflexivity.
      now destruct (bool_decide (pyIt ∈ order)), (host_unreachable (host pyIt)).
    + rewrite (bool_decide_eq_false_2 (k = pyIt)) by assumption.
      rewrite (bool_decide_ext (k ∈ pyIt :: order) (k ∈ order)); [reflexivity|].
      rewrite elem_of_cons. tauto.
Qed.

Lemma sweep_in_submap (order : list PyTypePtr) (s : Sweep) (k : PyTypePtr)
    (rvals : list GCThing) :
  PyTypeToGCThing (sweep_in host order s) !! k = Some rvals ->
  PyTypeToGCThing s !! k = Some rvals.
Proof.
  rewrite sweep_in_lookup.
  now destruct (bool_decide (k ∈ order) && host_unreachable (host k)).
Qed.

Lemma enumerates_key (order : list PyTypePtr) (tbl : Table) (k : PyTypePtr)
    (rvals : list GCThing) :
  enumerates order tbl -> tbl !! k = Some rvals -> k ∈ order.
Proof.
  intros Horder Hk. unfold enumerates in Horder. rewrite Horder.
  apply list_elem_of_fmap. exists (k, rvals).
  split; [reflexivity|]. now apply elem_of_map_to_list.
Qed.

Lemma enumerates_split (order : list PyTypePtr) (tbl : Table) (k : PyTypePtr)
    (rvals : list GCThing) :
  enumerates order tbl -> tbl !! k = Some rvals ->
  exists before after : list PyTypePtr,
    order = before ++ k :: after /\ (k ∉ before) /\ (k ∉ after).
Proof.
  intros Horder Hk.
  pose proof (enumerates_key order tbl k rvals Horder Hk) as Hin.
  apply list_elem_of_split in Hin as (before & after & Heq).
  exists before, after. split; [assumption|].
  assert (Hnd : NoDup order).
  { unfold enumerates in Horder. rewrite Horder. apply NoDup_fst_map_to_list. }
  rewrite Heq in Hnd.
  apply NoDup_app in Hnd as (_ & Hdisj & Hnd).
  apply NoDup_cons in Hnd as [Hafter _]. split; [|assumption].
  intros Hb. apply (Hdisj k Hb). now left.
Qed.

Lemma hook_lookup (order : list PyTypePtr) (tbl : Table) (k : PyTypePtr) :
  enumerates order tbl ->
  PyTypeToGCThing (handleSharedPythonMonkeyMemory host order JSGC_BEGIN tbl) !! k
  = if host_unreachable (host k) then None else tbl !! k.
Proof.
  intros Horder. simpl. rewrite sweep_in_lookup. simpl.
  destruct (host_unreachable (host k)); [|now rewrite andb_false_r].
  rewrite andb_true_r. case_bool_decide as Hin; [reflexivity|].
  destruct (tbl !! k) as [rvals|] eqn:E; [|reflexivity].
  exfalso. apply Hin. now apply (enumerates_key order tbl k rvals).
Qed.

Lemma hook_is_last_turn (order : list PyTypePtr) (tbl : Table) :
  handleSharedPythonMonkeyMemory host order JSGC_BEGIN tbl
  = after_turns host order tbl (length order).
Proof. unfold after_turns. now rewrite firstn_all. Qed.

(** C1. At every point of an invocation of the sweep hook between two turns of
    its loop, and so when it returns, a handle the invocation has released is
    listed by no entry of the table, be it the entry whose turn released it or
    any other: every entry that listed the handle when the invocation began
    has been retired by then, and its wrapper was unreachable. Within the turn
    that retires an entry, between the release of its handles and its
    erasure, a released handle is listed by no entry but the one being
    erased. A handle that two or more entries list is therefore not released
    before the last of them is retired. This holds in whatever order the
    entries are reached. *)
Theorem released_handle_is_listed_nowhere (order : list PyTypePtr) (tbl : Table)
    (turns : nat) (rval : GCThing) :
  let s := after_turns host order tbl turns in
  (rval ∈ deleted s ->
   ~ listed (PyTypeToGCThing s) rval
   /\ forall (k : PyTypePtr) (rvals : list GCThing),
        tbl !! k = Some rvals -> rval ∈ rvals ->
        PyTypeToGCThing s !! k = None /\ host_unreachable (host k) = true)
  /\ forall (pyIt : PyTypePtr) (rvals : list GCThing),
       PyTypeToGCThing s !! pyIt = Some rvals ->
       rval ∈ deleted (release s pyIt rvals) ->
       ~ listed_elsewhere (PyTypeToGCThing (release s pyIt rvals)) pyIt rval.
Proof.
  intros s.
  assert (Hc : consistent s) by apply sweep_in_consistent, fresh_consistent.
  split; [intros Hdel; split|].
  - intros (k & rvals & Hk & Hin). exact (Hc rval k rvals Hdel Hk Hin).
  - intros k rvals Hk Hin.
    assert (Hgone : PyTypeToGCThing s !! k = None).
    { destruct (PyTypeToGCThing s !! k) as [rvals'|] eqn:E; [|reflexivity].
      exfalso. pose proof (sweep_in_submap _ _ _ _ E) as E'. simpl in E'.
      rewrite Hk in E'. injection E' as <-. exact (Hc rval k rvals Hdel E Hin). }
    split; [assumption|].
    unfold s, after_turns in Hgone. rewrite sweep_in_lookup in Hgone. simpl in Hgone.
    rewrite Hk in Hgone.
    destruct (host_unreachable (host k)); [reflexivity|].
    now rewrite andb_false_r in Hgone.
  - intros pyIt rvals Hk Hdel. simpl in *. rewrite release_related_log in Hdel.
    apply elem_of_app in Hdel as [Hold|Hnew].
    + intros (k & rvals' & _ & Hk' & Hin). exact (Hc rval k rvals' Hold Hk' Hin).
    + apply list_elem_of_filter in Hnew as [Hf _]. now apply found_false_iff.
Qed.

(** C2. The hook acts when the collector reports the beginning of a cycle.
    For every entry of the table: its wrapper counts as unreachable exactly
    when the host collector has finalized it or its reference count is 1; the
    loop reaches the entry once; if the wrapper is unreachable, those of the
    entry's handles that no other entry then lists are released, the others
    are not, and the entry is erased; if it is reachable, nothing changes and
    the entry is in the table when the hook returns. *)
Theorem sweep_processes_every_entry (order : list PyTypePtr) (tbl : Table)
    (k : PyTypePtr) (rvals : list GCThing) :
  enumerates order tbl ->
  tbl !! k = Some rvals ->
  (host_unreachable (host k) = true
     <-> gc_finalized (host k) = true \/ ob_refcnt (host k) = 1)
  /\ processed host order tbl k rvals
  /\ PyTypeToGCThing (handleSharedPythonMonkeyMemory host order JSGC_BEGIN tbl) !! k
     = (if host_unreachable (host k) then None else Some rvals)
  /\ handleSharedPythonMonkeyMemory host order JSGC_END tbl = fresh tbl.
Proof.
  intros Horder Hk. split; [|split; [|split]].
  - unfold host_unreachable. rewrite orb_true_iff, Z.eqb_eq. reflexivity.
  - destruct (enumerates_split order tbl k rvals Horder Hk)
      as (before & after & Heq & Hb & Ha).
    exists before, after. repeat (split; [assumption|]).
    assert (Hs : PyTypeToGCThing (sweep_in host before (fresh tbl)) !! k = Some rvals).
    { rewrite sweep_in_lookup. rewrite bool_decide_eq_false_2 by assumption. exact Hk. }
    cbv zeta. split; [|split; [exact Hs|]].
    + simpl. rewrite Heq. unfold sweep_in, fresh. now rewrite foldl_app.
    + unfold visit. rewrite Hs. destruct (host_unreachable (host k)); [|reflexivity].
      simpl. split; [reflexivity|].
      eexists. split; [apply release_related_log|].
      intros rval. rewrite list_elem_of_filter, found_false_iff. tauto.
  - rewrite hook_lookup by assumption. now rewrite Hk.
  - reflexivity.
Qed.

End Sweep.

Lemma sample_order_enumerates : enumerates sample_order sample_table.
Proof. unfold enumerates. vm_compute. apply (Permutation_cons_append [2%N; 3%N] 1%N). Qed.

(** The two theorems on the sample table: after the three turns the shared
    handle 10 is released and listed nowhere; it is released in the turn of
    the wrapper 2, the last that listed it; the finalized wrapper 2 is
    retired. *)
Lemma released_handle_is_listed_nowhere_sample :
  (~ listed (PyTypeToGCThing (after_turns sample_host sample_order sample_table 3)) 10%N
   /\ forall (k : PyTypePtr) (rvals : list GCThing),
        sample_table !! k = Some rvals -> 10%N ∈ rvals ->
        PyTypeToGCThing (after_turns sample_host sample_order sample_table 3) !! k = None
        /\ host_unreachable (sample_host k) = true)
  /\ ~ listed_elsewhere
         (PyTypeToGCThing
            (release (after_turns sample_host sample_order sample_table 1) 2%N [10%N; 12%N]))
         2%N 10%N.
Proof.
  split.
  - apply (released_handle_is_listed_nowhere sample_host sample_order sample_table 3 10%N).
    vm_compute. apply list_elem_of_further, list_elem_of_here.
  - apply (released_handle_is_listed_nowhere sample_host sample_order sample_table 1 10%N).
    + vm_compute. reflexivity.
    + vm_compute. apply list_elem_of_further, list_elem_of_here.
Defined.

Lemma sweep_processes_every_entry_sample :
  (host_unreachable (sample_host 2%N) = true
     <-> gc_finalized (sample_host 2%N) = true \/ ob_refcnt (sample_host 2%N) = 1)
  /\ processed sample_host sample_order sample_table 2%N [10%N; 12%N]
  /\ PyTypeToGCThing
       (handleSharedPythonMonkeyMemory sample_host sample_order JSGC_BEGIN sample_table) !! 2%N
     = (if host_unreachable (sample_host 2%N) then None else Some [10%N; 12%N])
  /\ handleSharedPythonMonkeyMemory sample_host sample_order JSGC_END sample_table
     = fresh sample_table.
Proof.
  apply (sweep_processes_every_entry sample_host sample_order sample_table 2%N [10%N; 12%N]).
  - exact sample_order_enumerates.
  - vm_compute. reflexivity.
Defined.

End BridgeFacts.

(** ** The bytes proxy *)

Module ProxyFacts.
Import Py JS PyBytesProxyHandler.


Lemma substring_whole (s : string) (n : nat) :
  (String.length s <= n)%nat -> substring 0 n s = s.
Proof.
  revert n. induction s as [|c s IH]; intros n H; destruct n as [|n]; simpl in *;
    try reflexivity; try lia.
  f_equal. apply IH. lia.
Qed.


Lemma contents_lookup (mem : Memory) (ab : ArrayBuffer) (i : Z) :
  0 <= i < byteLength ab ->
  contents mem ab !! Z.to_nat i = Some (load mem (data ab) i).
Proof.
  intros H. unfold contents. rewrite list_lookup_fmap, lookup_seq_lt by lia.
  simpl. now rewrite Z2Nat.id by lia.
Qed.

(** C3. A write through the proxy, whatever the key and the value, is
    refused: the handler reports the read-only failure code, memory (and with
    it every byte of the buffer) is as before, and the host's error indicator
    holds a [TypeError] whose message is
    ['<type name>' object has only read-only attributes], with the first 100
    characters of the type name of the wrapped object, which is all of a name
    that is no longer. *)
Theorem set_is_refused (rt : Runtime) (proxy : Proxy) (id : PropertyKey)
    (v receiver : Value) :
  exists (rt' : Runtime) (shown : string),
    set rt proxy id v receiver = (true, JSMSG_READ_ONLY, rt')
    /\ JSMSG_READ_ONLY <> OkCode
    /\ memory rt' = memory rt
    /\ contents (memory rt') (OtherSlot proxy) = contents (memory rt) (OtherSlot proxy)
    /\ cx rt' = cx rt
    /\ py_err rt' = Some {| exc := PyExc_TypeError; message := read_only_message shown |}
    /\ shown = substring 0 100 (tp_name (PyObjectSlot proxy))
    /\ ((String.length (tp_name (PyObjectSlot proxy)) <= 100)%nat ->
        shown = tp_name (PyObjectSlot proxy)).
Proof.
  eexists. exists (substring 0 100 (tp_name (PyObjectSlot proxy))).
  split; [reflexivity|]. split; [discriminate|].
  repeat (split; [reflexivity|]).
  apply substring_whole.
Qed.

Lemma set_is_refused_sample :
  exists (rt' : Runtime) (shown : string),
    set sample_runtime sample_proxy (IntId 0) (Int32Value 99) UndefinedValue
      = (true, JSMSG_READ_ONLY, rt')
    /\ contents (memory rt') sample_buffer = [10; 20; 30]
    /\ py_err rt' = Some {| exc := PyExc_TypeError; message := read_only_message shown |}
    /\ shown = "bytes"%string.
Proof.
  destruct (set_is_refused sample_runtime sample_proxy (IntId 0) (Int32Value 99) UndefinedValue)
    as (rt' & shown & Hset & _ & _ & Hbytes & _ & Herr & _ & Hname).
  exists rt', shown. repeat split; try assumption.
  apply Hname. simpl. lia.
Defined.

Lemma allocate_room (cx : JSContext) :
  (1 <= heap_free cx)%N -> allocate cx = Some (allocated cx, allocations 1 cx).
Proof.
  intros H. unfold allocate. destruct (N.eqb_spec (heap_free cx) 0) as [E|_]; [lia|].
  reflexivity.
Qed.










(** The three iterations of the design document on the bytes 10, 20, 30. *)
Example entries_of_sample :
  sample_iteration array_entries 5
  = [Returned (value_result 102 (ObjectValue (ArrayObject 103 [Int32Value 0; Int32Value 10])));
     Returned (value_result 104 (ObjectValue (ArrayObject 105 [Int32Value 1; Int32Value 20])));
     Returned (value_result 106 (ObjectValue (ArrayObject 107 [Int32Value 2; Int32Value 30])));
     Returned (done_result 108);
     Returned (done_result 109)].
Proof. reflexivity. Qed.

Example keys_of_sample :
  sample_iteration array_keys 4
  = [Returned (value_result 102 (Int32Value 0));
     Returned (value_result 103 (Int32Value 1));
     Returned (value_result 104 (Int32Value 2));
     Returned (done_result 105)].
Proof. reflexivity. Qed.

Example values_of_sample :
  sample_iteration array_values 4
  = [Returned (value_result 102 (Int32Value 10));
     Returned (value_result 103 (Int32Value 20));
     Returned (value_result 104 (Int32Value 30));
     Returned (done_result 105)].
Proof. reflexivity. Qed.

Lemma append_cons (c : ascii) (a b : string) :
  (String c a ++ b)%string = String c (a ++ b)%string.
Proof. reflexivity. Qed.

Lemma append_nil_r (a : string) : (a ++ EmptyString)%string = a.
Proof. induction a as [|x a IH]; [reflexivity|]. now rewrite append_cons, IH. Qed.

Lemma append_assoc (a b c : string) : ((a ++ b) ++ c = a ++ (b ++ c))%string.
Proof. induction a as [|x a IH]; [reflexivity|]. now rewrite !append_cons, IH. Qed.




Lemma find_method_sound (methods : list JSMethodDef) (s : string) (m : JSMethodDef) :
  find_method methods s = Some m -> In m methods /\ s = name m.
Proof.
  induction methods as [|m' methods IH]; simpl; [discriminate|].
  destruct (String.eqb_spec s (name m')) as [->|_].
  - intros [= <-]. split; [now left|reflexivity].
  - intros H. destruct (IH H) as [Hin Hs]. split; [now right|assumption].
Qed.

Section Resolution.

Variable idToIndex : PropertyKey -> option Z.
Variable handleGetOwnPropertyDescriptor : Runtime -> PyObject -> PropertyKey -> Runtime.


(** C5, as the code has it. A key is settled by the first of these that
    applies. (1) A string that names a method gives a function object for the
    native of that name, a new one at every access. (2) A string that names a
    synthetic property gives that property. (3) A symbol never goes further:
    the iteration symbol gives a new function object for [array_values], any
    other symbol gives no property. (4) A key with an index inside the buffer
    gives the byte at that index. (5) A key that is none of these goes to the
    attribute lookup on the wrapped object. *)
Theorem resolution_by_step (rt : Runtime) (proxy : Proxy) (id : PropertyKey) :
  let result :=
    getOwnPropertyDescriptor idToIndex handleGetOwnPropertyDescriptor rt proxy id in
  let function (native : JSNative) (n : N) :=
    (Found (Some (Data (ObjectValue (FunctionObject (allocated (cx rt)) native n))
                       [Enumerable])),
     with_cx rt (allocations 1 (cx rt))) in
  match step_of idToIndex id with
  | NamedMethod m =>
      In m array_methods /\ id = StringId (name m)
      /\ ((1 <= heap_free (cx rt))%N -> result = function (call m) (nargs m))
      /\ ((2 <= heap_free (cx rt))%N ->
          fst (getOwnPropertyDescriptor idToIndex handleGetOwnPropertyDescriptor
                 (snd result) proxy id)
          <> fst result)
  | SyntheticProperty =>
      (exists s : string, id = StringId s /\ In s synthetic_names)
      /\ property_lookup rt proxy id = Some result
  | IterationSymbol =>
      id = SymbolId iterator
      /\ ((1 <= heap_free (cx rt))%N -> result = function native_array_values 0%N)
  | OtherSymbol =>
      (exists code : SymbolCode, id = SymbolId code /\ code <> iterator)
      /\ result = (Found None, rt)
  | NumericIndex index =>
      idToIndex id = Some index
      /\ (0 <= index < byteLength (OtherSlot proxy) ->
          exists byte : Z,
            contents (memory rt) (OtherSlot proxy) !! Z.to_nat index = Some byte
            /\ result = (Found (Some (Data (Int32Value byte) [])), rt))
  | HostLookup =>
      idToIndex id = None
      /\ result = (HostAttribute (PyObjectSlot proxy) id,
                 handleGetOwnPropertyDescriptor rt (PyObjectSlot proxy) id)
  end.
Proof.
  intros result function.
  assert (Hitem : forall index, idToIndex id = Some index ->
            method_lookup rt proxy id = None -> property_lookup rt proxy id = None ->
            symbol_lookup rt proxy id = None ->
            0 <= index < byteLength (OtherSlot proxy) ->
            exists byte : Z,
              contents (memory rt) (OtherSlot proxy) !! Z.to_nat index = Some byte
              /\ result = (Found (Some (Data (Int32Value byte) [])), rt)).
  { intros index Hi Hm Hp Hs Hin. eexists. split; [now apply contents_lookup|].
    unfold result, getOwnPropertyDescriptor, item_lookup. now rewrite Hm, Hp, Hs, Hi. }
  assert (Hhost : idToIndex id = None ->
            method_lookup rt proxy id = None -> property_lookup rt proxy id = None ->
            symbol_lookup rt proxy id = None ->
            result = (HostAttribute (PyObjectSlot proxy) id,
                 handleGetOwnPropertyDescriptor rt (PyObjectSlot proxy) id)).
  { intros Hi Hm Hp Hs.
    unfold result, getOwnPropertyDescriptor, item_lookup. now rewrite Hm, Hp, Hs, Hi. }
  destruct id as [s|i|code].
  - cbn [step_of]. destruct (find_method array_methods s) as [m|] eqn:Hm.
    + destruct (find_method_sound _ _ _ Hm) as [Hin ->].
      repeat split; try assumption.
      * intros Hroom. unfold result, getOwnPropertyDescriptor, method_lookup.
        rewrite Hm. cbn [or_else]. unfold function_descriptor, JS_NewFunction.
        now rewrite allocate_room.
      * intros Hroom. unfold result, getOwnPropertyDescriptor, method_lookup.
        rewrite Hm. cbn [or_else]. unfold function_descriptor, JS_NewFunction.
        rewrite (allocate_room (cx rt)) by lia. cbn [snd fst with_cx cx].
        rewrite allocate_room by (simpl; lia). cbn [fst allocations allocated].
        intros [= Heq]. lia.
    + destruct (is_synthetic s) eqn:Hsyn.
      * split.
        -- exists s. split; [reflexivity|]. unfold is_synthetic in Hsyn.
           apply existsb_exists in Hsyn as (x & Hx & Heq).
           apply String.eqb_eq in Heq. now subst x.
        -- unfold result, getOwnPropertyDescriptor, method_lookup. rewrite Hm.
           cbn [or_else]. unfold is_synthetic, synthetic_names in Hsyn.
           cbn [existsb] in Hsyn. unfold property_lookup.
           destruct (String.eqb s "length"), (String.eqb s "byteLength"),
             (String.eqb s "buffer"), (String.eqb s "BYTES_PER_ELEMENT"),
             (String.eqb s "byteOffset"), (String.eqb s "constructor");
             try discriminate Hsyn; cbn [orb or_else]; try reflexivity;
             destruct (Uint8Array_prototype (cx rt)) as [proto|]; try reflexivity;
             destruct (JS_GetProperty proto "constructor"); reflexivity.
      * assert (Hp : property_lookup rt proxy (StringId s) = None).
        { unfold is_synthetic, synthetic_names in Hsyn. cbn [existsb] in Hsyn.
          unfold property_lookup.
          destruct (String.eqb s "length"), (String.eqb s "byteLength"),
            (String.eqb s "buffer"), (String.eqb s "BYTES_PER_ELEMENT"),
            (String.eqb s "byteOffset"), (String.eqb s "constructor");
            try discriminate Hsyn; reflexivity. }
        assert (Hml : method_lookup rt proxy (StringId s) = None).
        { unfold method_lookup. now rewrite Hm. }
        destruct (idToIndex (StringId s)) as [index|] eqn:Hi.
        -- split; [reflexivity|]. now apply Hitem.
        -- split; [reflexivity|]. now apply Hhost.
  - cbn [step_of]. destruct (idToIndex (IntId i)) as [index|] eqn:Hi.
    + split; [reflexivity|]. now apply Hitem.
    + split; [reflexivity|]. now apply Hhost.
  - destruct code; cbn [step_of];
      try (split; [eexists; split; [reflexivity|discriminate]|reflexivity]).
    split; [reflexivity|]. intros Hroom.
    unfold result, getOwnPropertyDescriptor. cbn [method_lookup property_lookup symbol_lookup or_else].
    unfold function_descriptor, JS_NewFunction. now rewrite allocate_room.
Qed.

End Resolution.



Lemma resolution_by_step_sample :
  let keys := getOwnPropertyDescriptor idToIndex sample_handleGetOwnPropertyDescriptor
                sample_runtime sample_proxy (StringId "keys") in
  keys
  = (Found (Some (Data (ObjectValue (FunctionObject 100 native_array_keys 0)) [Enumerable])),
     with_cx sample_runtime (allocations 1 sample_cx))
  /\ fst (getOwnPropertyDescriptor idToIndex sample_handleGetOwnPropertyDescriptor
            (snd keys) sample_proxy (StringId "keys"))
     <> fst keys
  /\ getOwnPropertyDescriptor idToIndex sample_handleGetOwnPropertyDescriptor
       sample_runtime sample_proxy (SymbolId iterator)
     = (Found (Some (Data (ObjectValue (FunctionObject 100 native_array_values 0)) [Enumerable])),
        with_cx sample_runtime (allocations 1 sample_cx))
  /\ exists byte : Z,
       contents sample_memory sample_buffer !! 1%nat = Some byte
       /\ getOwnPropertyDescriptor idToIndex sample_handleGetOwnPropertyDescriptor
            sample_runtime sample_proxy (IntId 1)
          = (Found (Some (Data (Int32Value byte) [])), sample_runtime).
Proof.
  pose proof (resolution_by_step idToIndex sample_handleGetOwnPropertyDescriptor
                sample_runtime sample_proxy (StringId "keys"))
    as (_ & _ & Hkeys & Hfresh).
  pose proof (resolution_by_step idToIndex sample_handleGetOwnPropertyDescriptor
                sample_runtime sample_proxy (SymbolId iterator))
    as (_ & Hiterator).
  pose proof (resolution_by_step idToIndex sample_handleGetOwnPropertyDescriptor
                sample_runtime sample_proxy (IntId 1))
    as (_ & Hitem).
  cbv zeta. split; [|split; [|split]].
  - apply Hkeys. vm_compute. discriminate.
  - apply Hfresh. vm_compute. discriminate.
  - apply Hiterator. vm_compute. discriminate.
  - apply Hitem. simpl. lia.
Defined.

(** C5, as it is worded, sends every key that is no method, no synthetic
    property, not the iteration symbol and no index to the attribute lookup
    on the wrapped object. The handler does not: for a symbol other than the
    iteration symbol, here [Symbol.toStringTag], it reports that there is no
    such property and looks nothing up on the host. *)
Lemma other_symbol_is_not_looked_up :
  getOwnPropertyDescriptor idToIndex sample_handleGetOwnPropertyDescriptor
    sample_runtime sample_proxy (SymbolId toStringTag)
  = (Found None, sample_runtime)
  /\ resolution_as_documented idToIndex sample_handleGetOwnPropertyDescriptor
       sample_runtime sample_proxy (SymbolId toStringTag)
     = (HostAttribute sample_bytes (SymbolId toStringTag),
        sample_handleGetOwnPropertyDescriptor sample_runtime sample_bytes
          (SymbolId toStringTag))
  /\ getOwnPropertyDescriptor idToIndex sample_handleGetOwnPropertyDescriptor
       sample_runtime sample_proxy (SymbolId toStringTag)
     <> resolution_as_documented idToIndex sample_handleGetOwnPropertyDescriptor
          sample_runtime sample_proxy (SymbolId toStringTag).
Proof. repeat split; discriminate. Qed.

(** An index is read whatever the length of the buffer is. *)
Lemma item_is_read_unchecked (convert : PropertyKey -> option Z)
    (host : Runtime -> PyObject -> PropertyKey -> Runtime) (rt : Runtime)
    (proxy : Proxy) (i index : Z) :
  convert (IntId i) = Some index ->
  getOwnPropertyDescriptor convert host rt proxy (IntId i)
  = (Found (Some (Data (Int32Value (load (memory rt) (data (OtherSlot proxy)) index)) [])),
     rt).
Proof.
  intros H. unfold getOwnPropertyDescriptor, item_lookup.
  cbn [method_lookup property_lookup symbol_lookup or_else]. now rewrite H.
Qed.

(** C6 fails on the code. On the proxy over the three bytes 10, 20, 30 the key
    5 is not sent on to the attribute lookup of the wrapped object, as the
    design document has it: the handler reads [data[5]], the byte two places
    past the end of the buffer (77 in the sample memory), and returns it as
    the value of the property. The index 1, inside the buffer, reads 20. *)
Theorem index_past_the_end_is_read :
  byteLength (OtherSlot sample_proxy) = 3
  /\ contents (memory sample_runtime) (OtherSlot sample_proxy) = [10; 20; 30]
  /\ getOwnPropertyDescriptor idToIndex sample_handleGetOwnPropertyDescriptor
       sample_runtime sample_proxy (IntId 1)
     = (Found (Some (Data (Int32Value 20) [])), sample_runtime)
  /\ getOwnPropertyDescriptor idToIndex sample_handleGetOwnPropertyDescriptor
       sample_runtime sample_proxy (IntId 5)
     = (Found (Some (Data (Int32Value 77) [])), sample_runtime)
  /\ resolution_as_documented idToIndex sample_handleGetOwnPropertyDescriptor
       sample_runtime sample_proxy (IntId 5)
     = (HostAttribute sample_bytes (IntId 5),
        sample_handleGetOwnPropertyDescriptor sample_runtime sample_bytes (IntId 5)).
Proof. repeat split; reflexivity. Qed.

End ProxyFacts.

(** ** C strings and the stream of the error message *)

Module StreamFacts.
Import Py Exceptions.

Lemma append_nil_l (a : string) : (EmptyString ++ a)%string = a.
Proof. reflexivity. Qed.


Lemma c_str_app (a b : string) : NUL_free a -> c_str (a ++ b) = (a ++ c_str b)%string.
Proof.
  unfold NUL_free. induction a as [|c a IH]; intros Ha; [reflexivity|].
  rewrite !ProxyFacts.append_cons. cbn [c_str] in *.
  destruct (Ascii.eqb c zero); [discriminate Ha|].
  injection Ha as Ha. now rewrite IH.
Qed.

Lemma NUL_free_app (a b : string) : NUL_free a -> NUL_free b -> NUL_free (a ++ b).
Proof. intros Ha Hb. unfold NUL_free. rewrite c_str_app by assumption. now rewrite Hb. Qed.

Lemma NUL_free_c_str (s : string) : NUL_free (c_str s).
Proof.
  unfold NUL_free. induction s as [|c s IH]; [reflexivity|]. cbn [c_str].
  destruct (Ascii.eqb c zero) eqn:E; [reflexivity|]. cbn [c_str]. now rewrite E, IH.
Qed.

Lemma NUL_free_spaces (n : nat) : NUL_free (spaces n).
Proof.
  unfold NUL_free. induction n as [|n IH]; [reflexivity|]. cbn [spaces c_str].
  cbn [Ascii.eqb Bool.eqb zero]. now rewrite IH.
Qed.

Lemma NUL_free_decimal (n : N) : NUL_free (decimal n).
Proof.
  unfold NUL_free, decimal.
  assert (H : forall d, c_str (NilEmpty.string_of_uint d) = NilEmpty.string_of_uint d).
  { induction d; cbn [NilEmpty.string_of_uint c_str Ascii.eqb Bool.eqb zero];
      [reflexivity|now rewrite IHd..]. }
  unfold NilZero.string_of_uint. destruct (N.to_uint n); try apply H. reflexivity.
Qed.

Lemma NUL_free_newline : NUL_free newline.
Proof. reflexivity. Qed.

(** The insertions of a stream, run on what is known of their arguments. *)
Ltac run_stream :=
  cbv beta iota zeta delta
    [outStrStream insert_report insert_stack insert_chars insert_string
     insert_unsigned insert badbit str].

(** A text put together from C strings, numbers, blanks and literals holds
    no NUL. *)
Ltac no_NUL :=
  repeat first
    [ apply NUL_free_c_str | apply NUL_free_spaces | apply NUL_free_decimal
    | assumption | apply NUL_free_app | (unfold NUL_free; reflexivity) ].





End StreamFacts.

(** ** Exceptions and the evaluator *)

Module EvalFacts.
Import Py JS Exceptions PythonMonkey.

(** What [setSpiderMonkeyException] writes for an exception it can retrieve
    and report, with a file name and a line in the report: the location, the
    offending line and the caret under its token, the message of the engine,
    and the stack trace when there is one; each text up to its first NUL. *)
Lemma reported_exception (e : PendingException) (r : JSErrorReport) (file line : string) :
  stack_retrieved e = true -> report_initialized e = true ->
  report e = Some r -> filename r = Some file -> linebuf r = Some line ->
  c_str line <> EmptyString ->
  setSpiderMonkeyException (Some e)
  = {| exc := SpiderMonkeyError;
       message :=
         "Error in file " ++ c_str file ++ ", on line " ++ decimal (lineno r) ++ ":"
         ++ newline ++ c_str line ++ newline ++ spaces (tokenOffset r) ++ "^" ++ newline
         ++ c_str (toStringResult e) ++ newline
         ++ match stack e with
            | Some trace => "Stack Trace: " ++ newline ++ c_str trace
            | None => EmptyString
            end |}%string.
Proof.
  intros Hs Hi Hr Hf Hl Hne. unfold setSpiderMonkeyException.
  rewrite Hs, Hi. cbn [negb]. f_equal.
  assert (Hlen : (String.length (c_str line) =? 0)%nat = false).
  { destruct (c_str line); [contradiction|reflexivity]. }
  unfold outStrStream, insert_report. rewrite Hr, Hf, Hl, Hlen.
  destruct (stack e) as [trace|]; StreamFacts.run_stream;
    rewrite StreamFacts.append_nil_l, !ProxyFacts.append_assoc;
    rewrite ?ProxyFacts.append_nil_r; StreamFacts.no_NUL.
Qed.

(** Without a retrievable exception it writes a fixed text. *)
Lemma unretrievable_exception (pending : option PendingException) :
  match pending with
  | None => True
  | Some e => stack_retrieved e = false
  end ->
  exc (setSpiderMonkeyException pending) = SpiderMonkeyError
  /\ (message (setSpiderMonkeyException pending)
        = "Spidermonkey failed, but spidermonkey did not set an exception."%string
      \/ message (setSpiderMonkeyException pending)
        = "Spidermonkey set an exception, but was unable to retrieve it."%string).
Proof.
  destruct pending as [e|]; simpl.
  - intros ->. split; [reflexivity|]. now right.
  - intros _. split; [reflexivity|]. now left.
Qed.

Section Engine.

Variable source_init : string -> bool.
Variable Evaluate : string -> Evaluation.

(** Whatever the engine leaves pending, [eval] reports the same fixed
    [RuntimeError]. *)
Lemma eval_of_raised (g : Globals) (code : string) (pending : option PendingException) :
  source_init (c_str code) = true ->
  Evaluate (c_str code) = Raised pending ->
  eval source_init Evaluate g [PyUnicode code]
  = (Failed,
     PyErr_SetString (news 2 g) PyExc_RuntimeError
       "Spidermonkey could not evaluate the given JS code.").
Proof.
  intros Hinit Hraised. unfold eval. cbn [new]. rewrite Hinit, Hraised. cbn [negb].
  unfold PyErr_SetString, news. simpl. do 2 f_equal. lia.
Qed.

Lemma eval_of_completed (g : Globals) (code : string) (v : Value) :
  source_init (c_str code) = true ->
  Evaluate (c_str code) = Completed v ->
  eval source_init Evaluate g [PyUnicode code]
  = translate (news 2 g) (next_address g + 1)%N v.
Proof.
  intros Hinit Hdone. unfold eval. cbn [new]. rewrite Hinit, Hdone. cbn [negb].
  unfold news. simpl. do 2 f_equal. lia.
Qed.

(** C9. When the result of the evaluation is [undefined], [null], a symbol, a
    big integer or a magic value, [eval] does not fail: it returns [None],
    having printed the notice for that kind of value and left the error
    indicator and the table of roots alone. *)
Theorem unsupported_result_is_None (g : Globals) (code : string) (v : Value) :
  source_init (c_str code) = true ->
  Evaluate (c_str code) = Completed v ->
  unsupported v = true ->
  exists g' : Globals,
    eval source_init Evaluate g [PyUnicode code] = (Returned Py_None, g')
    /\ stdout g' = stdout g ++ [notice v]
    /\ py_err g' = py_err g
    /\ PyTypeToGCThing g' = PyTypeToGCThing g.
Proof.
  intros Hinit Hdone Hv. rewrite (eval_of_completed g code v Hinit Hdone).
  destruct v; try discriminate Hv; eexists; (split; [reflexivity|]);
    repeat split; reflexivity.
Qed.

Lemma PyDateTime_FromDateAndTime_cases (g : Globals) (y mo d h mi s us : Z) :
  PyDateTime_FromDateAndTime g y mo d h mi s us = (Returned (PyDateTime y mo d h mi s us), g)
  \/ exists msg : string,
       PyDateTime_FromDateAndTime g y mo d h mi s us
       = (Failed, PyErr_SetString g PyExc_ValueError msg).
Proof.
  unfold PyDateTime_FromDateAndTime.
  repeat match goal with
         | |- context [if ?b then _ else _] => destruct b; [right; now eexists|]
         end.
  now left.
Qed.

Lemma date_of_cases (g : Globals) (obj : Object) :
  date_of g obj = (Crashed, g)
  \/ (exists y mo d h mi s us : Z,
        date_of g obj = (Returned (PyDateTime y mo d h mi s us), g))
  \/ exists msg : string,
       date_of g obj = (Failed, PyErr_SetString g PyExc_ValueError msg).
Proof.
  unfold date_of.
  repeat match goal with
         | |- context [match toNumber ?x with _ => _ end] =>
             destruct (toNumber x); [|now left]
         end.
  repeat match goal with
         | |- context [match to_int ?x with _ => _ end] =>
             destruct (to_int x); [|now left]
         end.
  right. match goal with
         | |- context [PyDateTime_FromDateAndTime g ?y ?mo ?d ?h ?mi ?s ?us] =>
             destruct (PyDateTime_FromDateAndTime_cases g y mo d h mi s us) as [->|[msg ->]]
         end.
  - left. now do 7 eexists.
  - right. now exists msg.
Qed.


Lemma translate_never_long (g : Globals) (rval : Bridge.GCThing) (v : Value) (z : Z) :
  fst (translate g rval v) <> Returned (PyLong z).
Proof.
  destruct v; cbn; try discriminate.
  destruct (ObjectIsDate o); [|discriminate].
  match goal with
  | |- context [date_of ?g' o] =>
      destruct (date_of_cases g' o)
        as [->|[(y & mo & d & h & mi & s & us & ->)|(msg & ->)]]; discriminate
  end.
Qed.

(** C10. When the result of the evaluation is a number, [eval] returns a host
    float holding the double the engine reads the number as, also when the
    number is an [int32]; and no call of [eval], whatever its arguments and
    whatever the engine does, returns a host integer. *)
Theorem number_result_is_float (g : Globals) (code : string) (v : Value) :
  (source_init (c_str code) = true ->
   Evaluate (c_str code) = Completed v ->
   isNumber v = true ->
   exists (n : spec_float) (g' : Globals),
     toNumber v = Some n
     /\ eval source_init Evaluate g [PyUnicode code] = (Returned (PyFloat n), g')
     /\ (forall i : Z, v = Int32Value i -> n = double_of_int32 i)
     /\ py_err g' = py_err g)
  /\ forall (args : list PyValue) (z : Z),
       fst (eval source_init Evaluate g args) <> Returned (PyLong z).
Proof.
  split.
  - intros Hinit Hdone Hv. rewrite (eval_of_completed g code v Hinit Hdone).
    destruct v; try discriminate Hv; do 2 eexists;
      (split; [reflexivity|]); (split; [reflexivity|]); (split; [|reflexivity]).
    + now intros i' [= ->].
    + discriminate.
  - intros args z. unfold eval. destruct args as [|arg args]; [discriminate|].
    cbn [new]. destruct arg; try discriminate.
    destruct (source_init (c_str s)); cbn [negb]; [|discriminate].
    destruct (Evaluate (c_str s)); [|discriminate].
    apply translate_never_long.
Qed.

End Engine.

Lemma unsupported_result_is_None_sample :
  exists g' : Globals,
    eval sample_source_init sample_Evaluate sample_globals [PyUnicode "10n"]
    = (Returned Py_None, g')
    /\ stdout g' = ["bigint type is not handled by PythonMonkey yet"%string]
    /\ py_err g' = None
    /\ PyTypeToGCThing g' = ∅.
Proof.
  apply (unsupported_result_is_None sample_source_init sample_Evaluate sample_globals
           "10n" (BigIntValue 10)); reflexivity.
Defined.

Lemma number_result_is_float_sample :
  exists (n : spec_float) (g' : Globals),
    toNumber (Int32Value 42) = Some n
    /\ eval sample_source_init sample_Evaluate sample_globals [PyUnicode "42"]
       = (Returned (PyFloat n), g')
    /\ (forall i : Z, Int32Value 42 = Int32Value i -> n = double_of_int32 i)
    /\ py_err g' = None.
Proof.
  apply (proj1 (number_result_is_float sample_source_init sample_Evaluate sample_globals
                  "42" (Int32Value 42))); reflexivity.
Defined.

(** C8 fails on the code. The program [throw new Error('boom')] makes the
    engine raise an exception whose report has the file, the line, the text of
    the line and a stack. [eval] returns [NULL] with a [RuntimeError] whose
    message is a fixed sentence: none of the location, the line, the message
    of the engine or the stack is in it. [setSpiderMonkeyException], which
    formats exactly these, is not called. *)
Theorem eval_drops_the_exception :
  sample_Evaluate (c_str "  throw new Error('boom')") = Raised (Some sample_exception)
  /\ eval sample_source_init sample_Evaluate sample_globals
       [PyUnicode "  throw new Error('boom')"]
     = (Failed,
        PyErr_SetString (news 2 sample_globals) PyExc_RuntimeError
          "Spidermonkey could not evaluate the given JS code.")
  /\ setSpiderMonkeyException (Some sample_exception)
     = {| exc := SpiderMonkeyError;
          message := "Error in file noname, on line 1:" ++ newline
                     ++ "  throw new Error('boom')" ++ newline
                     ++ "  ^" ++ newline
                     ++ "Error: boom" ++ newline
                     ++ "Stack Trace: " ++ newline
                     ++ "  @noname:1:9" |}%string
  /\ py_err (snd (eval sample_source_init sample_Evaluate sample_globals
                    [PyUnicode "  throw new Error('boom')"]))
     <> Some (setSpiderMonkeyException (Some sample_exception)).
Proof. repeat split; discriminate. Qed.

End EvalFacts.

(** ** More on the table and the sweep *)

Module SweepFacts.
Import Py Bridge Collector.

Lemma memoize_lookup (pyType k : PyTypePtr) (thing : GCThing) (tbl : Table) :
  memoizePyTypeAndGCThing pyType thing tbl !! k
  = if decide (k = pyType) then Some (default [] (tbl !! pyType) ++ [thing])
    else tbl !! k.
Proof.
  unfold memoizePyTypeAndGCThing.
  destruct (tbl !! pyType) as [gcVector|] eqn:E; destruct (decide (k = pyType)) as [->|Hne];
    simpl; try apply lookup_insert_eq; now apply lookup_insert_ne.
Qed.

(** X1. After any sequence of registrations, the vector of a wrapper is the
    vector it had before followed by the handles registered for it, in the
    order of the calls and with repetitions kept; a wrapper has an entry
    exactly when it had one or one of the calls names it. *)
Theorem registrations_append (pairs : list (PyTypePtr * GCThing)) (tbl : Table)
    (k : PyTypePtr) :
  memoize_all pairs tbl !! k
  = match tbl !! k, registered_for k pairs with
    | None, [] => None
    | before, added => Some (default [] before ++ added)
    end.
Proof.
  unfold memoize_all, registered_for. revert tbl.
  induction pairs as [|[p h] pairs IH]; intros tbl.
  - simpl. destruct (tbl !! k); simpl; [now rewrite app_nil_r|reflexivity].
  - cbn [foldl]. rewrite IH, memoize_lookup. cbn [fst snd].
    destruct (decide (k = p)) as [->|Hne].
    + rewrite filter_cons_True by reflexivity. cbn [fmap list_fmap snd].
      destruct (tbl !! p) as [v|]; simpl;
        destruct ((filter (λ ph, ph.1 = p) pairs).*2); simpl;
        now rewrite <- ?app_assoc.
    + rewrite filter_cons_False by (simpl; congruence). reflexivity.
Qed.

Lemma occurrences_app (rval : GCThing) (l1 l2 : list GCThing) :
  occurrences rval (l1 ++ l2) = (occurrences rval l1 + occurrences rval l2)%nat.
Proof. unfold occurrences. now rewrite filter_app, length_app. Qed.

Lemma occurrences_one (rval : GCThing) : occurrences rval [rval] = 1%nat.
Proof. unfold occurrences. now rewrite filter_cons_True by reflexivity. Qed.

Lemma occurrences_kept (P : GCThing -> Prop) `{forall r, Decision (P r)}
    (rval : GCThing) (l : list GCThing) :
  P rval -> occurrences rval (filter P l) = occurrences rval l.
Proof.
  intros HP. unfold occurrences. induction l as [|r l IH]; [reflexivity|].
  destruct (decide (P r)) as [Hr|Hr].
  - rewrite (filter_cons_True P) by assumption.
    destruct (decide (r = rval)) as [->|Hne].
    + rewrite !(filter_cons_True (fun r => r = rval)) by reflexivity. simpl. now rewrite IH.
    + rewrite !(filter_cons_False (fun r => r = rval)) by assumption. exact IH.
  - rewrite (filter_cons_False P) by assumption.
    rewrite (filter_cons_False (fun r => r = rval)); [exact IH|].
    intros ->. contradiction.
Qed.

Section Sweep.

Variable host : HostHeap.

Lemma visit_deleted_extends (s : Sweep) (pyIt : PyTypePtr) :
  exists more : list GCThing, deleted (visit host s pyIt) = deleted s ++ more.
Proof.
  unfold visit. destruct (PyTypeToGCThing s !! pyIt) as [rvals|];
    [|exists []; now rewrite app_nil_r].
  destruct (host_unreachable (host pyIt)); [|exists []; now rewrite app_nil_r].
  simpl. eexists. apply BridgeFacts.release_related_log.
Qed.

Lemma sweep_deleted_extends (order : list PyTypePtr) (s : Sweep) :
  exists more : list GCThing, deleted (sweep_in host order s) = deleted s ++ more.
Proof.
  unfold sweep_in. revert s. induction order as [|pyIt order IH]; intros s; simpl.
  - exists []. now rewrite app_nil_r.
  - destruct (IH (visit host s pyIt)) as [more Hmore].
    destruct (visit_deleted_extends s pyIt) as [now Hnow].
    exists (now ++ more). now rewrite Hmore, Hnow, app_assoc.
Qed.

Lemma sweep_deleted_origin (order : list PyTypePtr) (s : Sweep) (rval : GCThing) :
  rval ∈ deleted (sweep_in host order s) ->
  rval ∈ deleted s \/ listed (PyTypeToGCThing s) rval.
Proof.
  unfold sweep_in. revert s. induction order as [|pyIt order IH]; intros s; simpl.
  - now left.
  - intros H. destruct (IH _ H) as [Hd|(k & rvals & Hk & Hin)].
    + unfold visit in Hd. destruct (PyTypeToGCThing s !! pyIt) as [rvals|] eqn:E;
        [|now left].
      destruct (host_unreachable (host pyIt)); [|now left].
      simpl in Hd. rewrite BridgeFacts.release_related_log in Hd.
      apply elem_of_app in Hd as [Hold|Hnew]; [now left|].
      apply list_elem_of_filter in Hnew as [_ Hin]. right. now exists pyIt, rvals.
    + right. exists k, rvals. split; [|assumption].
      rewrite BridgeFacts.visit_lookup in Hk.
      now destruct (bool_decide (k = pyIt) && host_unreachable (host pyIt)).
Qed.

(** If every entry that lists [rval] is unreachable and due for a turn, and
    there is one, the loop deletes [rval]. *)
Lemma sweep_deletes (order : list PyTypePtr) (s : Sweep) (rval : GCThing) :
  listed (PyTypeToGCThing s) rval ->
  (forall (k : PyTypePtr) (rvals : list GCThing),
     PyTypeToGCThing s !! k = Some rvals -> rval ∈ rvals ->
     k ∈ order /\ host_unreachable (host k) = true) ->
  rval ∈ deleted (sweep_in host order s).
Proof.
  revert s. induction order as [|pyIt order IH]; intros s Hl Hall.
  - destruct Hl as (k & rvals & Hk & Hin).
    destruct (Hall k rvals Hk Hin) as [Hin' _]. now apply elem_of_nil in Hin'.
  - change (sweep_in host (pyIt :: order) s) with (sweep_in host order (visit host s pyIt)).
    destruct (decide (listed (PyTypeToGCThing (visit host s pyIt)) rval
                      \/ rval ∈ deleted (visit host s pyIt))) as [[Hl'|Hd]|Hno].
    + apply IH; [assumption|]. intros k rvals Hk Hin.
      rewrite BridgeFacts.visit_lookup in Hk.
      destruct (bool_decide (k = pyIt) && host_unreachable (host pyIt)) eqn:Eb;
        [discriminate|].
      destruct (Hall k rvals Hk Hin) as [Hin' Hu]. split; [|assumption].
      apply elem_of_cons in Hin' as [->|?]; [|assumption].
      rewrite bool_decide_eq_true_2, Hu in Eb by reflexivity. discriminate.
    + destruct (sweep_deleted_extends order (visit host s pyIt)) as [more ->].
      apply elem_of_app. now left.
    + exfalso. apply Hno. clear IH.
      destruct Hl as (k & rvals & Hk & Hin).
      destruct (Hall k rvals Hk Hin) as [_ Hu].
      destruct (decide (k = pyIt)) as [->|Hne].
      * unfold visit. rewrite Hk, Hu. simpl.
        destruct (found (PyTypeToGCThing s) pyIt rval) eqn:Ef.
        -- left. apply BridgeFacts.found_true_iff in Ef as (k' & rvals' & Hne & Hk' & Hin').
           exists k', rvals'. split; [|assumption]. now rewrite lookup_delete_ne.
        -- right. rewrite BridgeFacts.release_related_log. apply elem_of_app. right.
           now apply list_elem_of_filter.
      * left. exists k, rvals. split; [|assumption].
        rewrite BridgeFacts.visit_lookup, bool_decide_eq_false_2 by assumption.
        exact Hk.
Qed.

(** X2. What a sweep releases, whatever the order of the table: a handle is
    released exactly when some entry lists it and the wrapper of every entry
    that lists it is unreachable. A handle that a reachable wrapper shares
    with unreachable ones stays. *)
Theorem released_iff_every_lister_unreachable (order : list PyTypePtr) (tbl : Table)
    (rval : GCThing) :
  enumerates order tbl ->
  (rval ∈ deleted (handleSharedPythonMonkeyMemory host order JSGC_BEGIN tbl)
   <-> listed tbl rval
       /\ forall (k : PyTypePtr) (rvals : list GCThing),
            tbl !! k = Some rvals -> rval ∈ rvals -> host_unreachable (host k) = true).
Proof.
  intros Horder. split.
  - intros Hdel. split.
    + destruct (sweep_deleted_origin _ _ _ Hdel) as [Hd|Hl]; [|exact Hl].
      now apply elem_of_nil in Hd.
    + intros k rvals Hk Hin.
      destruct (host_unreachable (host k)) eqn:Hu; [reflexivity|exfalso].
      pose proof (BridgeFacts.sweep_in_consistent host order (fresh tbl)
                    (BridgeFacts.fresh_consistent tbl)) as Hc.
      apply (Hc rval k rvals Hdel); [|assumption].
      rewrite BridgeFacts.sweep_in_lookup, Hu, andb_false_r. exact Hk.
  - intros [Hl Hall]. apply sweep_deletes; [exact Hl|].
    intros k rvals Hk Hin. split; [|now apply (Hall k rvals)].
    now apply (BridgeFacts.enumerates_key order tbl k rvals).
Qed.

(** X3. If no vector of the table holds a handle twice, a sweep deletes no
    handle twice, in whatever order it reaches the entries and however many
    wrappers share a handle. *)
Theorem no_handle_is_deleted_twice (order : list PyTypePtr) (tbl : Table) :
  (forall (k : PyTypePtr) (rvals : list GCThing), tbl !! k = Some rvals -> NoDup rvals) ->
  NoDup (deleted (handleSharedPythonMonkeyMemory host order JSGC_BEGIN tbl)).
Proof.
  intros Hvec. simpl.
  assert (Hinv : forall (order : list PyTypePtr) (s : Sweep),
            consistent s -> NoDup (deleted s) ->
            (forall k rvals, PyTypeToGCThing s !! k = Some rvals -> NoDup rvals) ->
            NoDup (deleted (sweep_in host order s))).
  { clear. intros order. unfold sweep_in.
    induction order as [|pyIt order IH]; intros s Hc Hnd Hvec; simpl; [assumption|].
    apply IH.
    - now apply BridgeFacts.visit_consistent.
    - unfold visit. destruct (PyTypeToGCThing s !! pyIt) as [rvals|] eqn:E; [|assumption].
      destruct (host_unreachable (host pyIt)); [|assumption].
      simpl. rewrite BridgeFacts.release_related_log. apply NoDup_app.
      split; [assumption|]. split.
      + intros rval Hold [_ Hin]%list_elem_of_filter. exact (Hc rval pyIt rvals Hold E Hin).
      + apply NoDup_filter. now apply (Hvec pyIt).
    - intros k rvals Hk. rewrite BridgeFacts.visit_lookup in Hk.
      destruct (bool_decide (k = pyIt) && host_unreachable (host pyIt)); [discriminate|].
      now apply (Hvec k). }
  apply Hinv.
  - apply BridgeFacts.fresh_consistent.
  - apply NoDup_nil_2.
  - exact Hvec.
Qed.

(** X4. A pair registered twice is deleted twice: when the wrapper is
    unreachable and no other entry lists the handle, the sweep runs
    [delete] on the handle once for each time the vector holds it. *)
Theorem registered_twice_is_deleted_twice (order : list PyTypePtr) (tbl : Table)
    (pyType : PyTypePtr) (thing : GCThing) :
  let twice := memoizePyTypeAndGCThing pyType thing
                 (memoizePyTypeAndGCThing pyType thing tbl) in
  enumerates order twice ->
  host_unreachable (host pyType) = true ->
  ~ listed_elsewhere tbl pyType thing ->
  (2 <= occurrences thing
          (deleted (handleSharedPythonMonkeyMemory host order JSGC_BEGIN twice)))%nat.
Proof.
  intros twice Horder Hu Hnot.
  assert (Hk : twice !! pyType
               = Some ((default [] (tbl !! pyType) ++ [thing]) ++ [thing])).
  { unfold twice. rewrite !memoize_lookup.
    destruct (decide (pyType = pyType)); [reflexivity|congruence]. }
  destruct (BridgeFacts.enumerates_split order twice pyType _ Horder Hk)
    as (before & after & Heq & Hb & Ha).
  simpl. rewrite Heq. unfold sweep_in. rewrite foldl_app. cbn [foldl].
  fold (sweep_in host before (fresh twice)).
  set (s := sweep_in host before (fresh twice)).
  assert (Hs : PyTypeToGCThing s !! pyType
               = Some ((default [] (tbl !! pyType) ++ [thing]) ++ [thing])).
  { unfold s. rewrite BridgeFacts.sweep_in_lookup, bool_decide_eq_false_2 by assumption.
    exact Hk. }
  assert (Hf : found (PyTypeToGCThing s) pyType thing = false).
  { apply BridgeFacts.found_false_iff. intros (k & rvals & Hne & Hk' & Hin).
    apply Hnot. exists k, rvals. split; [assumption|]. split; [|assumption].
    apply (BridgeFacts.sweep_in_submap host) in Hk'. simpl in Hk'.
    unfold twice in Hk'. rewrite !memoize_lookup in Hk'.
    destruct (decide (k = pyType)); [contradiction|assumption]. }
  fold (sweep_in host after (visit host s pyType)).
  destruct (sweep_deleted_extends after (visit host s pyType)) as [more ->].
  unfold visit. rewrite Hs, Hu. simpl. rewrite BridgeFacts.release_related_log.
  rewrite !occurrences_app, occurrences_kept by assumption.
  rewrite !occurrences_app, occurrences_one. lia.
Qed.

(** X5. The table a sweep leaves is the table it found without the entries of
    unreachable wrappers: the entries that stay keep their vectors, nothing
    is added. *)
Theorem sweep_keeps_the_reachable (order : list PyTypePtr) (tbl : Table) :
  enumerates order tbl ->
  PyTypeToGCThing (handleSharedPythonMonkeyMemory host order JSGC_BEGIN tbl)
  = filter (fun entry => host_unreachable (host entry.1) = false) tbl.
Proof.
  intros Horder. apply map_eq. intros k.
  rewrite BridgeFacts.hook_lookup by assumption.
  rewrite map_lookup_filter.
  destruct (tbl !! k) as [rvals|]; simpl; [|now destruct (host_unreachable (host k))].
  destruct (host_unreachable (host k)) eqn:Hu.
  - rewrite option_guard_False by (simpl; rewrite ?Hu; congruence). reflexivity.
  - rewrite option_guard_True by (simpl; rewrite ?Hu; reflexivity). reflexivity.
Qed.

(** A loop over entries that are all reachable changes nothing. *)
Lemma sweep_of_reachable (order : list PyTypePtr) (s : Sweep) :
  (forall (k : PyTypePtr) (rvals : list GCThing),
     PyTypeToGCThing s !! k = Some rvals -> host_unreachable (host k) = false) ->
  sweep_in host order s = s.
Proof.
  intros Hall. unfold sweep_in. induction order as [|pyIt order IH]; simpl; [reflexivity|].
  replace (visit host s pyIt) with s; [exact IH|].
  unfold visit. destruct (PyTypeToGCThing s !! pyIt) as [rvals|] eqn:E; [|reflexivity].
  now rewrite (Hall pyIt rvals E).
Qed.

(** X6. [collect] returns [None], prints nothing and sets no error; a second
    [collect] right after the first, with the host unchanged, deletes no
    handle and leaves the table as it is. *)
Theorem collect_twice (order again : list PyTypePtr) (g : PythonMonkey.Globals) :
  enumerates order (PythonMonkey.PyTypeToGCThing g) ->
  let '(result, g1, _) := collect host order g in
  let '(result', g2, released) := collect host again g1 in
  result = JS.Returned PythonMonkey.Py_None
  /\ result' = JS.Returned PythonMonkey.Py_None
  /\ PythonMonkey.py_err g1 = PythonMonkey.py_err g
  /\ PythonMonkey.stdout g1 = PythonMonkey.stdout g
  /\ g2 = g1
  /\ released = [].
Proof.
  intros Horder. unfold collect, JS_GC. cbn [handleSharedPythonMonkeyMemory fresh
    PyTypeToGCThing deleted PythonMonkey.PyTypeToGCThing PythonMonkey.py_err
    PythonMonkey.stdout PythonMonkey.next_address].
  rewrite !app_nil_r.
  rewrite (sweep_of_reachable again).
  - repeat split; reflexivity.
  - intros k rvals Hk. cbn [fresh PyTypeToGCThing] in Hk.
    pose proof (BridgeFacts.hook_lookup host order _ k Horder) as Hl.
    cbn [handleSharedPythonMonkeyMemory] in Hl. rewrite Hl in Hk.
    now destruct (host_unreachable (host k)).
Qed.

End Sweep.

(** The sweep theorems on the sample table. *)
Lemma released_iff_every_lister_unreachable_sample :
  10%N ∈ deleted (handleSharedPythonMonkeyMemory sample_host sample_order JSGC_BEGIN
                    sample_table)
  <-> listed sample_table 10%N
      /\ forall (k : PyTypePtr) (rvals : list GCThing),
           sample_table !! k = Some rvals -> 10%N ∈ rvals ->
           host_unreachable (sample_host k) = true.
Proof.
  apply (released_iff_every_lister_unreachable sample_host sample_order sample_table 10%N).
  exact BridgeFacts.sample_order_enumerates.
Defined.

Lemma sample_table_without_repetition (k : PyTypePtr) (rvals : list GCThing) :
  sample_table !! k = Some rvals -> NoDup rvals.
Proof.
  revert k rvals. apply map_Forall_lookup.
  apply (bool_decide_unpack _). vm_compute. exact I.
Qed.

Lemma no_handle_is_deleted_twice_sample :
  NoDup (deleted (handleSharedPythonMonkeyMemory sample_host sample_order JSGC_BEGIN
                    sample_table)).
Proof.
  apply (no_handle_is_deleted_twice sample_host sample_order sample_table).
  exact sample_table_without_repetition.
Defined.

Lemma registered_twice_is_deleted_twice_sample :
  (2 <= occurrences 10%N
          (deleted (handleSharedPythonMonkeyMemory sample_host [1%N] JSGC_BEGIN
                      (memoizePyTypeAndGCThing 1%N 10%N
                         (memoizePyTypeAndGCThing 1%N 10%N ∅)))))%nat.
Proof.
  apply (registered_twice_is_deleted_twice sample_host [1%N] ∅ 1%N 10%N).
  - unfold enumerates. vm_compute. apply Permutation_refl.
  - reflexivity.
  - intros (k & rvals & _ & Hk & _). rewrite lookup_empty in Hk. discriminate Hk.
Defined.

Lemma sweep_keeps_the_reachable_sample :
  PyTypeToGCThing (handleSharedPythonMonkeyMemory sample_host sample_order JSGC_BEGIN
                     sample_table)
  = filter (fun entry => host_unreachable (sample_host entry.1) = false) sample_table.
Proof.
  apply (sweep_keeps_the_reachable sample_host sample_order sample_table).
  exact BridgeFacts.sample_order_enumerates.
Defined.

Lemma collect_twice_sample :
  let g := {| PythonMonkey.PyTypeToGCThing := sample_table;
              PythonMonkey.next_address := 500;
              PythonMonkey.stdout := [];
              PythonMonkey.py_err := None |} in
  let '(result, g1, _) := collect sample_host sample_order g in
  let '(result', g2, released) := collect sample_host [3%N] g1 in
  result = JS.Returned PythonMonkey.Py_None
  /\ result' = JS.Returned PythonMonkey.Py_None
  /\ PythonMonkey.py_err g1 = PythonMonkey.py_err g
  /\ PythonMonkey.stdout g1 = PythonMonkey.stdout g
  /\ g2 = g1
  /\ released = [].
Proof.
  intros g. apply (collect_twice sample_host sample_order [3%N] g).
  exact BridgeFacts.sample_order_enumerates.
Defined.

End SweepFacts.

(** ** More on the evaluator and the collection *)

Module EvalMore.
Import Py JS Exceptions PythonMonkey Collector.

Section Engine.

Variable source_init : string -> bool.
Variable Evaluate : string -> Evaluation.
Variable host : Bridge.HostHeap.






(** X8. A string result is the engine's string, and is registered: the table
    gains one entry, the new wrapper with the new root as its only handle,
    and no other entry changes. A [collect] while the host still holds the
    wrapper keeps root and entry; a [collect] after the host dropped it
    deletes the root and erases the entry. *)
Theorem string_result_is_shared (g : Globals) (code s : string)
    (order : list Bridge.PyTypePtr) :
  let wrapper := (next_address g + 2)%N in
  let root := (next_address g + 1)%N in
  let '(result, g') := eval source_init Evaluate g [PyUnicode code] in
  let '(_, g'', released) := collect host order g' in
  allocated_before g ->
  source_init (c_str code) = true ->
  Evaluate (c_str code) = Completed (StringValue s) ->
  Bridge.enumerates order (PyTypeToGCThing g') ->
  result = Returned (PyUnicode s)
  /\ PyTypeToGCThing g' !! wrapper = Some [root]
  /\ (forall k : Bridge.PyTypePtr,
        k <> wrapper -> PyTypeToGCThing g' !! k = PyTypeToGCThing g !! k)
  /\ (Bridge.host_unreachable (host wrapper) = false ->
      (root ∉ released) /\ PyTypeToGCThing g'' !! wrapper = Some [root])
  /\ (Bridge.host_unreachable (host wrapper) = true ->
      root ∈ released /\ PyTypeToGCThing g'' !! wrapper = None).
Proof.
  intros wrapper root.
  destruct (eval source_init Evaluate g [PyUnicode code]) as [result g'] eqn:Heval.
  destruct (collect host order g') as [[none g''] released] eqn:Hcollect.
  intros Hg Hinit Hdone Horder.
  rewrite (EvalFacts.eval_of_completed source_init Evaluate g code _ Hinit Hdone) in Heval.
  cbn in Heval. injection Heval as <- <-.
  cbn [PyTypeToGCThing] in *.
  set (tbl := Bridge.memoizePyTypeAndGCThing (next_address g + 2)%N (next_address g + 1)%N
                (PyTypeToGCThing g)) in *.
  assert (Hw : tbl !! wrapper = Some [root]).
  { unfold tbl, wrapper, root. rewrite SweepFacts.memoize_lookup.
    destruct (decide _) as [_|Hne]; [|congruence].
    match goal with |- context [default [] ?o] => destruct o as [old|] eqn:E end;
      [|reflexivity].
    destruct (Hg _ _ E) as [Hlt _]. lia. }
  assert (Hother : forall k, k <> wrapper -> tbl !! k = PyTypeToGCThing g !! k).
  { intros k Hne. unfold tbl. rewrite SweepFacts.memoize_lookup.
    destruct (decide _) as [Heq|_]; [contradiction|reflexivity]. }
  unfold collect, JS_GC in Hcollect.
  cbn [Bridge.handleSharedPythonMonkeyMemory Bridge.fresh Bridge.PyTypeToGCThing
       Bridge.deleted PyTypeToGCThing] in Hcollect.
  rewrite app_nil_r in Hcollect. injection Hcollect as _ <- <-.
  cbn [PyTypeToGCThing].
  split; [reflexivity|]. split; [exact Hw|]. split; [exact Hother|].
  pose proof (BridgeFacts.hook_lookup host order tbl wrapper Horder) as Hl.
  cbn [Bridge.handleSharedPythonMonkeyMemory] in Hl.
  split; intros Hu; rewrite Hu in Hl;
    (split; [|first [exact Hl | exact (eq_trans Hl Hw)]]).
  - intros Hdel.
    pose proof (BridgeFacts.sweep_in_consistent host order _
                  (BridgeFacts.fresh_consistent tbl)) as Hc.
    apply (Hc root wrapper [root] Hdel); [|apply list_elem_of_here].
    exact (eq_trans Hl Hw).
  - apply SweepFacts.sweep_deletes.
    + exists wrapper, [root]. split; [exact Hw|apply list_elem_of_here].
    + intros k rvals Hk Hin. cbn [Bridge.fresh Bridge.PyTypeToGCThing] in Hk.
      destruct (decide (k = wrapper)) as [->|Hne].
      * split; [|assumption].
        now apply (BridgeFacts.enumerates_key order tbl wrapper [root]).
      * exfalso. rewrite Hother in Hk by assumption.
        destruct (Hg k rvals Hk) as [_ Hrs]. specialize (Hrs root Hin).
        unfold root in Hrs. lia.
Qed.

(** X9. The error protocol of [eval]. When it returns [NULL] the error
    indicator holds a [TypeError], a [RuntimeError] or a [ValueError], the
    last only when the script evaluated to an object, whose date the host's
    [datetime] refused; nothing was registered or printed. When it returns a
    value the error indicator is as it was before the call. Where its
    behaviour is undefined, it was called without an argument or the script
    evaluated to an object. *)
Theorem eval_error_protocol (g : Globals) (args : list PyValue) :
  let object_result :=
    exists (code : string) (rest : list PyValue) (obj : Object),
      args = PyUnicode code :: rest
      /\ Evaluate (c_str code) = Completed (ObjectValue obj) in
  match eval source_init Evaluate g args with
  | (Failed, g') =>
      (exists e : PyErr,
         py_err g' = Some e
         /\ (exc e = PyExc_TypeError \/ exc e = PyExc_RuntimeError
             \/ (exc e = PyExc_ValueError /\ object_result)))
      /\ PyTypeToGCThing g' = PyTypeToGCThing g
      /\ stdout g' = stdout g
  | (Returned _, g') => py_err g' = py_err g
  | (Crashed, _) => args = [] \/ object_result
  end.
Proof.
  intros object_result. unfold eval. destruct args as [|arg args]; [now left|].
  cbn [new]. destruct arg;
    try (cbn; split; [eexists; split; [reflexivity|now left]|split; reflexivity]).
  destruct (source_init (c_str s)); cbn [negb];
    [|cbn; split; [eexists; split; [reflexivity|right; now left]|split; reflexivity]].
  destruct (Evaluate (c_str s)) as [v|pending] eqn:Hdone;
    [|cbn; split; [eexists; split; [reflexivity|right; now left]|split; reflexivity]].
  destruct v; cbn; try reflexivity.
  assert (Hobject : object_result) by (now exists s, args, o).
  destruct (ObjectIsDate o); cbn; [|reflexivity].
  match goal with
  | |- context [date_of ?g' o] =>
      destruct (EvalFacts.date_of_cases g' o)
        as [->|[(y & mo & d & h & mi & s' & us & ->)|(msg & ->)]]
  end.
  - now right.
  - reflexivity.
  - cbn. split; [|split; reflexivity].
    eexists. split; [reflexivity|]. right. right. now split.
Qed.


End Engine.

(** The two dates of the sample. The first is returned as the host's
    [datetime], its month counted from 1 and its milliseconds passed as
    microseconds; the second is refused by the host, whose years end at
    9999. *)
Example date_results :
  eval sample_source_init sample_Evaluate_Date sample_globals
    [PyUnicode "new Date(2023, 1, 28, 12, 30, 45, 678)"]
  = (Returned (PyDateTime 2023 2 28 12 30 45 678), news 3 sample_globals)
  /\ eval sample_source_init sample_Evaluate_Date sample_globals
       [PyUnicode "new Date(8.64e15)"]
     = (Failed,
        PyErr_SetString (news 3 sample_globals) PyExc_ValueError
          "year 275760 is out of range").
Proof. split; vm_compute; reflexivity. Qed.

Lemma eval_error_protocol_sample :
  let g' := snd (eval sample_source_init sample_Evaluate_Date sample_globals
                   [PyUnicode "new Date(8.64e15)"]) in
  (exists e : PyErr,
     py_err g' = Some e
     /\ (exc e = PyExc_TypeError \/ exc e = PyExc_RuntimeError
         \/ (exc e = PyExc_ValueError
             /\ exists (code : string) (rest : list PyValue) (obj : Object),
                  [PyUnicode "new Date(8.64e15)"] = PyUnicode code :: rest
                  /\ sample_Evaluate_Date (c_str code) = Completed (ObjectValue obj))))
  /\ PyTypeToGCThing g' = PyTypeToGCThing sample_globals
  /\ stdout g' = stdout sample_globals.
Proof.
  exact (eval_error_protocol sample_source_init sample_Evaluate_Date sample_globals
           [PyUnicode "new Date(8.64e15)"]).
Defined.


Lemma string_result_is_shared_sample :
  let '(result, g') :=
    eval sample_source_init sample_Evaluate sample_globals [PyUnicode "'abc'"] in
  let '(_, g'', released) := collect Bridge.sample_host [502%N] g' in
  result = Returned (PyUnicode "abc")
  /\ PyTypeToGCThing g' !! 502%N = Some [501%N]
  /\ (501%N ∉ released)
  /\ PyTypeToGCThing g'' !! 502%N = Some [501%N].
Proof.
  pose proof (string_result_is_shared sample_source_init sample_Evaluate
                Bridge.sample_host sample_globals "'abc'" "abc" [502%N]) as H.
  cbv zeta in H.
  destruct (eval sample_source_init sample_Evaluate sample_globals [PyUnicode "'abc'"])
    as [result g'] eqn:Heval.
  destruct (collect Bridge.sample_host [502%N] g') as [[none g''] released] eqn:Hcollect.
  destruct H as (Hresult & Hentry & _ & Hheld & _).
  - intros k rvals Hk. cbn in Hk. rewrite lookup_empty in Hk. discriminate Hk.
  - reflexivity.
  - reflexivity.
  - vm_compute in Heval. injection Heval as _ <-.
    unfold Bridge.enumerates. vm_compute. apply Permutation_refl.
  - destruct (Hheld eq_refl) as [Hroot Hkept]. repeat split; assumption.
Defined.

End EvalMore.

(** ** More on the proxy and its iterators *)

Module IterationFacts.
Import Py JS PyBytesProxyHandler Iteration.



Lemma SetNextIndex_again (it : BytesIterator) (i j : Z) :
  SetNextIndex (SetNextIndex it i) j = SetNextIndex it j.
Proof. reflexivity. Qed.







End IterationFacts.

(** ** More on the lookups of the proxy *)

Module LookupFacts.
Import Py JS PyBytesProxyHandler.

Section Handler.

Variable convert : PropertyKey -> option Z.
Variable host : Runtime -> PyObject -> PropertyKey -> Runtime.

Lemma method_is_found (m : JSMethodDef) :
  In m array_methods -> find_method array_methods (name m) = Some m.
Proof.
  intros Hin. repeat (destruct Hin as [<-|Hin]; [reflexivity|]). destruct Hin.
Qed.

Lemma method_lookup_allocates (rt : Runtime) (proxy : Proxy) (m : JSMethodDef) :
  In m array_methods -> (1 <= heap_free (cx rt))%N ->
  getOwnPropertyDescriptor convert host rt proxy (StringId (name m))
  = (Found (Some (Data (ObjectValue (FunctionObject (allocated (cx rt)) (call m) (nargs m)))
                   [Enumerable])),
     with_cx rt (allocations 1 (cx rt))).
Proof.
  intros Hin Hroom. unfold getOwnPropertyDescriptor, method_lookup.
  rewrite (method_is_found m Hin). cbn [or_else].
  unfold function_descriptor, JS_NewFunction.
  now rewrite (ProxyFacts.allocate_room (cx rt)) by assumption.
Qed.

(** X13. A method of the proxy is a new function at every lookup: two
    lookups of the same name, one after the other, give two function objects
    of different identities over the same native. *)
Theorem method_is_a_new_function_each_time (rt : Runtime) (proxy : Proxy)
    (m : JSMethodDef) :
  In m array_methods -> (2 <= heap_free (cx rt))%N ->
  exists (first second : N) (rt1 rt2 : Runtime),
    getOwnPropertyDescriptor convert host rt proxy (StringId (name m))
    = (Found (Some (Data (ObjectValue (FunctionObject first (call m) (nargs m)))
                     [Enumerable])), rt1)
    /\ getOwnPropertyDescriptor convert host rt1 proxy (StringId (name m))
       = (Found (Some (Data (ObjectValue (FunctionObject second (call m) (nargs m)))
                        [Enumerable])), rt2)
    /\ first <> second.
Proof.
  intros Hin Hroom. do 4 eexists. split; [|split].
  - apply method_lookup_allocates; [assumption|lia].
  - apply method_lookup_allocates; [assumption|simpl; lia].
  - simpl. lia.
Qed.

(** What a lookup that the handler settles itself has done: [after] is the
    runtime it leaves when called in [before] and answering [answer]. *)
Lemma function_descriptor_effect (rt : Runtime) (native : JSNative) (n : N) :
  let result := function_descriptor rt native n in
  (fst result = Threw /\ snd result = rt)
  \/ (fst result
      = Found (Some (Data (ObjectValue (FunctionObject (allocated (cx rt)) native n))
                       [Enumerable]))
      /\ snd result = with_cx rt (allocations 1 (cx rt))).
Proof.
  unfold function_descriptor, JS_NewFunction, allocate.
  destruct (heap_free (cx rt) =? 0)%N; cbn; [left|right]; split; reflexivity.
Qed.

(** The lookups in the order of the handler: the answer of the first that
    applies, or the hand-over to the host. *)
Lemma lookup_cases (rt : Runtime) (proxy : Proxy) (id : PropertyKey) :
  let result := getOwnPropertyDescriptor convert host rt proxy id in
  (exists (native : JSNative) (n : N), result = function_descriptor rt native n)
  \/ (snd result = rt
      /\ match fst result with
         | Found _ | Threw | Null_dereference => True
         | HostAttribute _ _ => False
         end)
  \/ result = (HostAttribute (PyObjectSlot proxy) id, host rt (PyObjectSlot proxy) id).
Proof.
  cbv zeta. unfold getOwnPropertyDescriptor.
  destruct (method_lookup rt proxy id) as [found|] eqn:Hmethod.
  { unfold method_lookup in Hmethod. destruct id as [s|i|code]; try discriminate.
    destruct (find_method array_methods s) as [m|]; [|discriminate].
    injection Hmethod as <-. left. now do 2 eexists. }
  destruct (property_lookup rt proxy id) as [found|] eqn:Hproperty.
  { unfold property_lookup in Hproperty. destruct id as [s|i|code]; try discriminate.
    right. left.
    repeat match type of Hproperty with
           | (if ?b then _ else _) = _ => destruct b
           | match ?o with _ => _ end = _ => destruct o
           end;
      try discriminate; injection Hproperty as <-; cbn; auto. }
  destruct (symbol_lookup rt proxy id) as [found|] eqn:Hsymbol.
  { unfold symbol_lookup in Hsymbol. destruct id as [s|i|code]; try discriminate.
    destruct code; injection Hsymbol as <-;
      first [ left; now do 2 eexists | right; left; cbn; auto ]. }
  cbn [or_else]. unfold item_lookup, attribute_lookup.
  destruct (convert id); cbn [or_else]; [right; left; cbn; auto|right; right; reflexivity].
Qed.

(** X14. A lookup that the handler settles itself writes nothing: the bytes
    and the error indicator of the host are as before, and the engine is as
    before too, unless the answer is a function, made for the lookup, which
    is the one object it allocates. A key that it does not settle is handed
    to the attribute lookup of the host, and the runtime is what that lookup
    leaves. *)
Theorem lookup_allocates_at_most_a_function (rt : Runtime) (proxy : Proxy)
    (id : PropertyKey) :
  let result := getOwnPropertyDescriptor convert host rt proxy id in
  match fst result with
  | HostAttribute self key =>
      self = PyObjectSlot proxy /\ key = id /\ snd result = host rt self key
  | answer =>
      memory (snd result) = memory rt /\ py_err (snd result) = py_err rt
      /\ (snd result = rt
          \/ cx (snd result) = allocations 1 (cx rt)
             /\ exists (native : JSNative) (n : N),
                  answer
                  = Found (Some (Data (ObjectValue
                                         (FunctionObject (allocated (cx rt)) native n))
                                   [Enumerable])))
  end.
Proof.
  cbv zeta.
  destruct (lookup_cases rt proxy id) as [(native & n & ->)|[[Hrt Hanswer]| ->]].
  - destruct (function_descriptor_effect rt native n) as [[-> ->]|[-> ->]]; cbn.
    + auto.
    + repeat split. right. split; [reflexivity|]. now exists native, n.
  - rewrite Hrt.
    destruct (fst (getOwnPropertyDescriptor convert host rt proxy id));
      [auto ..|contradiction].
  - cbn. auto.
Qed.

(** X15. A refused write changes nothing that the handler reads. After
    [set], every key that the handler settles itself, on whatever proxy, is
    looked up with the answer it had before and with the same effect on the
    engine, and [valueOf] and the next step of every iterator give what they
    gave; the error of the refused write stays in the indicator. A key that
    goes to the attribute lookup of the host goes there with that error
    pending. *)
Theorem refused_write_changes_no_read (rt : Runtime) (proxy : Proxy) (id : PropertyKey)
    (v receiver : Value) (other : Proxy) (key : PropertyKey) (it : BytesIterator) :
  let rt' := snd (set rt proxy id v receiver) in
  let before := getOwnPropertyDescriptor convert host rt other key in
  let after := getOwnPropertyDescriptor convert host rt' other key in
  memory rt' = memory rt /\ cx rt' = cx rt
  /\ match fst before with
     | HostAttribute self attribute =>
         after = (HostAttribute self attribute, host rt' self attribute)
     | answer =>
         fst after = answer
         /\ memory (snd after) = memory (snd before)
         /\ cx (snd after) = cx (snd before)
         /\ py_err (snd after) = py_err rt'
     end
  /\ array_valueOf rt' other = array_valueOf rt other
  /\ fst (iterator_next rt' it) = fst (iterator_next rt it).
Proof.
  cbn [set snd]. set (rt' := PyErr_SetString rt _ _). cbv zeta.
  assert (Hmem : memory rt' = memory rt) by reflexivity.
  assert (Hcx : cx rt' = cx rt) by reflexivity.
  split; [reflexivity|]. split; [reflexivity|]. split; [|split; [reflexivity|]].
  - unfold getOwnPropertyDescriptor, method_lookup, property_lookup, symbol_lookup,
      item_lookup, attribute_lookup, function_descriptor. rewrite Hmem, Hcx.
    destruct key as [s|i|code]; cbn [or_else].
    + destruct (find_method array_methods s) as [m|]; cbn [or_else].
      { destruct (JS_NewFunction (cx rt) (call m) (nargs m)) as [[f cx']|];
          cbn; repeat split. }
      repeat match goal with
             | |- context [if ?b then _ else _] => destruct b; cbn [or_else fst snd]
             end; try (repeat split; reflexivity).
      * destruct (Uint8Array_prototype (cx rt)) as [proto|]; [|repeat split].
        destruct (JS_GetProperty proto "constructor"); repeat split.
      * destruct (convert (StringId s)); cbn; repeat split.
    + destruct (convert (IntId i)); cbn; repeat split.
    + destruct code; cbn [or_else fst snd]; try (repeat split; reflexivity).
      destruct (JS_NewFunction (cx rt) native_array_values 0) as [[f cx']|];
        cbn; repeat split.
  - unfold iterator_next, item_value, with_cx. subst rt'. unfold PyErr_SetString.
    cbn [memory cx py_err].
    destruct (JS_NewPlainObject (cx rt)) as [[result cx1]|]; [|reflexivity].
    repeat match goal with
           | |- context [if ?b then _ else _] => destruct b
           | |- context [match ?o with _ => _ end] => destruct o
           end; reflexivity.
Qed.

End Handler.

(** Two lookups of [valueOf] on the sample proxy. *)
Lemma method_is_a_new_function_each_time_sample :
  exists (first second : N) (rt1 rt2 : Runtime),
    getOwnPropertyDescriptor idToIndex sample_handleGetOwnPropertyDescriptor
      sample_runtime sample_proxy (StringId "valueOf")
    = (Found (Some (Data (ObjectValue (FunctionObject first native_array_valueOf 0))
                     [Enumerable])), rt1)
    /\ getOwnPropertyDescriptor idToIndex sample_handleGetOwnPropertyDescriptor
         rt1 sample_proxy (StringId "valueOf")
       = (Found (Some (Data (ObjectValue (FunctionObject second native_array_valueOf 0))
                        [Enumerable])), rt2)
    /\ first <> second.
Proof.
  apply (method_is_a_new_function_each_time idToIndex
           sample_handleGetOwnPropertyDescriptor sample_runtime sample_proxy
           {| name := "valueOf"; call := native_array_valueOf; nargs := 0 |}).
  - right. left. reflexivity.
  - vm_compute. discriminate.
Defined.

End LookupFacts.

(** ** More on the errors of the engine *)

Module ExceptionFacts.
Import Py Exceptions.




End ExceptionFacts.
